(** * NetPad API client: retry, backoff and error normalisation

    A shallow embedding of [common/apiClient.js] (class [NetPadApiClient],
    the factory and the module-level default client) together with the
    properties stated about it.

    Conventions of the embedding:
    - JavaScript numbers that the client handles (status codes, retry
      counters, delays, timeouts) are integers and are modelled by [Z];
    - JavaScript objects used as JSON payloads are finite maps from
      property names to values;
    - an [async] method is a computation of type [Js A]: the list of
      observable events it performs (console output, timed waits, requests
      put on the wire) and the way its promise settles;
    - the remote service and the network are an oracle [Remote] answering
      each attempt. *)

From Stdlib Require Import ZArith Lia Ascii String.
From stdpp Require Import base option list strings gmap pretty.

Open Scope Z_scope.

Set Warnings "-register-all".

(** ** JavaScript values *)

Module JS.

Inductive value : Type :=
| VUndefined
| VNull
| VBool (b : bool)
| VNum (n : Z)
| VStr (s : string)
| VArr (elems : list value)
| VObj (props : gmap string value).

(** ToBoolean: [undefined], [null], [false], [0] and [''] are falsy. *)
Definition truthy (v : value) : bool :=
  match v with
  | VUndefined | VNull => false
  | VBool b => b
  | VNum n => negb (n =? 0)
  | VStr s => negb (String.eqb s "")
  | VArr _ | VObj _ => true
  end.

(** [a || b] *)
Definition or (a b : value) : value := if truthy a then a else b.

(** Property read [v.k] on a value that is neither [null] nor
    [undefined]; only objects carry named properties here. *)
Definition get (k : string) (v : value) : value :=
  match v with
  | VObj props => default VUndefined (props !! k)
  | _ => VUndefined
  end.

(** Optional chaining [v?.k]. *)
Definition get_opt (k : string) (v : value) : value :=
  match v with
  | VUndefined | VNull => VUndefined
  | _ => get k v
  end.

(** ToString, as applied by a template literal. *)
Fixpoint toString (v : value) : string :=
  match v with
  | VUndefined => "undefined"
  | VNull => "null"
  | VBool true => "true"
  | VBool false => "false"
  | VNum n => pretty n
  | VStr s => s
  | VArr elems =>
      String.concat ","
        (map (fun e => match e with
                       | VUndefined | VNull => ""
                       | _ => toString e
                       end) elems)
  | VObj _ => "[object Object]"
  end.

(** A parameter default [p = d]: the default applies exactly when the
    argument is [undefined]. *)
Definition default_param (d v : value) : value :=
  match v with
  | VUndefined => d
  | _ => v
  end.

Fixpoint chars (s : string) : list value :=
  match s with
  | EmptyString => []
  | String a s' => VStr (String a EmptyString) :: chars s'
  end.

Definition indexed (l : list value) : gmap string value :=
  list_to_map (imap (fun (i : nat) v => (pretty i, v)) l).

(** Own enumerable properties copied by an object spread [{...v}]. *)
Definition spread (v : value) : gmap string value :=
  match v with
  | VObj props => props
  | VArr elems => indexed elems
  | VStr s => indexed (chars s)
  | _ => ∅
  end.

(** [{...base, ...v}]: later properties win. *)
Definition assign (base : gmap string value) (v : value)
  : gmap string value :=
  spread v ∪ base.

(** *** [parseInt] on a string, radix left out

    Leading white space is skipped, a sign is read, a [0x]/[0X] prefix
    selects radix 16 (radix 10 otherwise) and the longest prefix of
    digits is converted; [None] stands for [NaN]. *)

Definition code (a : Ascii.ascii) : Z := Z.of_N (Ascii.N_of_ascii a).

Definition is_space (a : Ascii.ascii) : bool :=
  let c := code a in (c =? 32) || ((9 <=? c) && (c <=? 13)).

Fixpoint skip_spaces (s : string) : string :=
  match s with
  | String a s' => if is_space a then skip_spaces s' else s
  | EmptyString => s
  end.

Definition digit_value (radix : Z) (a : Ascii.ascii) : option Z :=
  let c := code a in
  let d := if (48 <=? c) && (c <=? 57) then Some (c - 48)
           else if (97 <=? c) && (c <=? 122) then Some (c - 87)
           else if (65 <=? c) && (c <=? 90) then Some (c - 55)
           else None in
  match d with
  | Some v => if v <? radix then Some v else None
  | None => None
  end.

Fixpoint digits (radix : Z) (s : string) (acc : option Z) : option Z :=
  match s with
  | String a s' =>
      match digit_value radix a with
      | Some d => digits radix s' (Some (radix * default 0 acc + d))
      | None => acc
      end
  | EmptyString => acc
  end.

Definition unsigned (s : string) : option Z :=
  match s with
  | String "0"%char (String "x"%char s')
| String "0"%char (String "X"%char s') =>
      digits 16 s' None
  | _ => digits 10 s None
  end.

Definition parseInt (s : string) : option Z :=
  match skip_spaces s with
  | String "-"%char s' => Z.opp <$> unsigned s'
  | String "+"%char s' => unsigned s'
  | s' => unsigned s'
  end.

(** [parseInt(process.env.X)]: an unset variable reads [undefined],
    which parses to [NaN]. *)
Definition parseInt_env (x : option string) : option Z :=
  x ≫= parseInt.

(** [a || d] for an optional number: [undefined], [NaN] and [0] are
    falsy. *)
Definition num_or (a : option Z) (d : Z) : Z :=
  match a with
  | Some n => if n =? 0 then d else n
  | None => d
  end.

(** [a || d] for an optional string: [undefined] and [''] are falsy. *)
Definition str_or (a : option string) (d : string) : string :=
  match a with
  | Some s => if String.eqb s "" then d else s
  | None => d
  end.

End JS.

Export JS.

(** ** The HTTP library, as far as the client relies on it

    [axios] itself is not part of the repository. What the client uses of
    it is fixed here: a request resolves when a response with a 2xx status
    arrives and rejects with an error object otherwise; the error carries
    the request configuration, a [request] handle once something was sent
    and the [response] when one arrived; a configuration handed back to
    [request] keeps the properties the client added to it. *)

Module Request.
Inductive Method := GET | POST.
Record t := {
  method : Method;
  url : string;
  data : value;
  __retryCount : option Z
}.
Definition set_retryCount (c : Z) (cfg : t) : t :=
  {| method := method cfg; url := url cfg; data := data cfg;
     __retryCount := Some c |}.
End Request.

Module Response.
Record t := {
  status : Z;
  statusText : string;
  data : value
}.
End Response.

Module AxiosError.
Record t := {
  message : string;
  config : option Request.t;
  request : bool;
  response : option Response.t
}.
Definition set_config (cfg : Request.t) (e : t) : t :=
  {| message := message e; config := Some cfg; request := request e;
     response := response e |}.
End AxiosError.

Module Axios.

Record Instance := {
  baseURL : string;
  timeout : Z;
  headers : list (string * string)
}.

(** What comes back for one attempt put on the wire. *)
Inductive Reply :=
| Respond (r : Response.t)
| NoResponse (message : string)
| SetupFailure (message : string) (keepsConfig : bool).

(** The remote service and the network between: the reply to the [n]-th
    attempt (counted from 0) of a logical request. *)
Definition Remote := nat -> Instance -> Request.t -> Reply.

Definition validateStatus (status : Z) : bool :=
  (200 <=? status) && (status <? 300).

Definition dispatch (remote : Remote) (n : nat) (inst : Instance)
    (cfg : Request.t) : AxiosError.t + Response.t :=
  match remote n inst cfg with
  | Respond r =>
      if validateStatus (Response.status r) then inr r
      else inl {| AxiosError.message :=
                    "Request failed with status code "
                      +:+ pretty (Response.status r);
                  AxiosError.config := Some cfg;
                  AxiosError.request := true;
                  AxiosError.response := Some r |}
  | NoResponse msg =>
      inl {| AxiosError.message := msg;
             AxiosError.config := Some cfg;
             AxiosError.request := true;
             AxiosError.response := None |}
  | SetupFailure msg keepsConfig =>
      inl {| AxiosError.message := msg;
             AxiosError.config := if keepsConfig then Some cfg else None;
             AxiosError.request := false;
             AxiosError.response := None |}
  end.

End Axios.

(** ** Thrown values *)

Module JsError.
Record t := {
  name : string;
  message : string;
  status : option Z;
  data : option value;
  originalError : option AxiosError.t
}.
(** [new Error(message)] *)
Definition Error (msg : string) : t :=
  {| name := "Error"; message := msg; status := None; data := None;
     originalError := None |}.
(** The engine's complaint about a property read on [null] or
    [undefined]. *)
Definition TypeError (msg : string) : t :=
  {| name := "TypeError"; message := msg; status := None; data := None;
     originalError := None |}.
End JsError.

(** ** Asynchronous computations with observable events *)

Inductive LogLine :=
| LogRequest (method : Request.Method) (url : string)
| LogRequestData (data : value)
| LogResponse (status : Z) (statusText : string)
| LogMessage (message : string).

Inductive Event :=
| ConsoleLog (line : LogLine)
| ConsoleWarn (label detail : string)
| Sleep (ms : Z)
| Attempt (n : nat) (inst : Axios.Instance) (cfg : Request.t).

Inductive Completion (A : Type) :=
| Resolved (a : A)
| Rejected (e : JsError.t)
| OutOfFuel.
Arguments Resolved {A} a.
Arguments Rejected {A} e.
Arguments OutOfFuel {A}.

Record Js (A : Type) := MkJs {
  trace : list Event;
  completion : Completion A
}.
Arguments MkJs {A} trace completion.
Arguments trace {A} j.
Arguments completion {A} j.

Definition js_ret {A} (a : A) : Js A := MkJs [] (Resolved a).

Definition js_bind {A B} (f : A -> Js B) (m : Js A) : Js B :=
  match completion m with
  | Resolved a => MkJs (trace m ++ trace (f a)) (completion (f a))
  | Rejected e => MkJs (trace m) (Rejected e)
  | OutOfFuel => MkJs (trace m) OutOfFuel
  end.

#[export] Instance Js_ret : MRet Js := @js_ret.
#[export] Instance Js_bind : MBind Js := @js_bind.

Definition throw {A} (e : JsError.t) : Js A := MkJs [] (Rejected e).

Definition emit (ev : Event) : Js unit := MkJs [ev] (Resolved tt).

(** [try { body } catch (error) { handler }] *)
Definition try_catch {A} (body : Js A) (handler : JsError.t -> Js A)
  : Js A :=
  match completion body with
  | Rejected e =>
      MkJs (trace body ++ trace (handler e)) (completion (handler e))
  | _ => body
  end.

(** ** Configuration *)

(** [process.env], restricted to the variables the client reads. *)
Module Env.
Record t := {
  NETPAD_API_URL : option string;
  NETPAD_API_KEY : option string;
  NETPAD_TIMEOUT : option string;
  NETPAD_RETRIES : option string
}.
Definition empty : t :=
  {| NETPAD_API_URL := None; NETPAD_API_KEY := None;
     NETPAD_TIMEOUT := None; NETPAD_RETRIES := None |}.
End Env.

(** The [options] argument of the constructor; [None] is a property left
    out. *)
Module Options.
Record t := {
  apiUrl : option string;
  apiKey : option string;
  timeout : option Z;
  retries : option Z;
  enableLogging : option bool
}.
(** [{}] *)
Definition empty : t :=
  {| apiUrl := None; apiKey := None; timeout := None; retries := None;
     enableLogging := None |}.
End Options.

(** [this.config] *)
Module Config.
Record t := {
  baseURL : string;
  apiKey : string;
  timeout : Z;
  retries : Z;
  enableLogging : bool
}.
End Config.

(** The argument of [updateConfig]: some of the properties of
    [this.config]. *)
Module NewConfig.
Record t := {
  baseURL : option string;
  apiKey : option string;
  timeout : option Z;
  retries : option Z;
  enableLogging : option bool
}.
Definition empty : t :=
  {| baseURL := None; apiKey := None; timeout := None; retries := None;
     enableLogging := None |}.
(** [{ ...config, ...newConfig }] *)
Definition merge (config : Config.t) (newConfig : t) : Config.t :=
  {| Config.baseURL := default (Config.baseURL config) (baseURL newConfig);
     Config.apiKey := default (Config.apiKey config) (apiKey newConfig);
     Config.timeout := default (Config.timeout config) (timeout newConfig);
     Config.retries := default (Config.retries config) (retries newConfig);
     Config.enableLogging :=
       default (Config.enableLogging config) (enableLogging newConfig) |}.
End NewConfig.

(** ** class [NetPadApiClient] *)

Module NetPadApiClient.

Record t := {
  config : Config.t;
  client : option Axios.Instance
}.

(** The result object of [testConnection]. *)
Module Probe.
Record t := {
  success : bool;
  message : string;
  error : option JsError.t
}.
End Probe.

Definition resolveConfig (env : Env.t) (options : Options.t) : Config.t :=
  {| Config.baseURL :=
       str_or (Options.apiUrl options)
         (str_or (Env.NETPAD_API_URL env) "https://netpad.io/api/mcp");
     Config.apiKey :=
       str_or (Options.apiKey options) (str_or (Env.NETPAD_API_KEY env) "");
     Config.timeout :=
       num_or (Options.timeout options)
         (num_or (parseInt_env (Env.NETPAD_TIMEOUT env)) 30000);
     Config.retries :=
       num_or (Options.retries options)
         (num_or (parseInt_env (Env.NETPAD_RETRIES env)) 3);
     Config.enableLogging :=
       match Options.enableLogging options with
       | Some false => false
       | _ => true
       end |}.

Definition axios_create (config : Config.t) : Axios.Instance :=
  {| Axios.baseURL := Config.baseURL config;
     Axios.timeout := Config.timeout config;
     Axios.headers :=
       [("Content-Type", "application/json");
        ("X-API-Key", Config.apiKey config);
        ("User-Agent", "NetPad-Extension/1.0.0")] |}.

(** [initialize()]: the object after the call and how the call ended.
    The interceptors that [setupInterceptors] registers on the new
    instance are the body of [request] below. *)
Definition initialize (this : t) : t * Completion unit :=
  if String.eqb (Config.apiKey (config this)) "" then
    (this,
     Rejected (JsError.Error
       "NetPad API key is required. Set NETPAD_API_KEY environment variable or pass apiKey option."))
  else
    ({| config := config this;
        client := Some (axios_create (config this)) |},
     Resolved tt).

(** The constructor body, run on the freshly allocated object. *)
Definition constructor (env : Env.t) (options : Options.t)
  : t * Completion unit :=
  initialize {| config := resolveConfig env options; client := None |}.

Definition shouldRetry (error : AxiosError.t) : bool :=
  match AxiosError.response error with
  | None => true
  | Some r =>
      let status := Response.status r in
      (500 <=? status) || (status =? 429)
  end.

Definition enhanceError (error : AxiosError.t) : JsError.t :=
  match AxiosError.response error with
  | Some r =>
      {| JsError.name := "Error";
         JsError.message :=
           "NetPad API Error (" +:+ pretty (Response.status r) +:+ "): "
             +:+ toString (JS.or (get_opt "message" (Response.data r))
                                 (VStr (Response.statusText r)));
         JsError.status := Some (Response.status r);
         JsError.data := Some (Response.data r);
         JsError.originalError := Some error |}
  | None =>
      {| JsError.name := "Error";
         JsError.message :=
           if AxiosError.request error
           then "NetPad API Error: No response received (network error)"
           else "NetPad API Error: " +:+ AxiosError.message error;
         JsError.status := None;
         JsError.data := None;
         JsError.originalError := Some error |}
  end.

Definition sleep (ms : Z) : Js unit := emit (Sleep ms).

Definition log (this : t) (message : string) : Js unit :=
  if Config.enableLogging (config this)
  then emit (ConsoleLog (LogMessage message))
  else mret tt.

Definition console_log (this : t) (line : LogLine) : Js unit :=
  if Config.enableLogging (config this)
  then emit (ConsoleLog line)
  else mret tt.

Section Methods.

Variable remote : Axios.Remote.

(** [this.client.request(config)] with the two interceptors around the
    transport: the request interceptor, the attempt itself, then the
    response interceptor, whose error branch retries by calling
    [request] again on the same configuration. *)
Fixpoint request (fuel : nat) (this : t) (inst : Axios.Instance)
    (n : nat) (cfg : Request.t) : Js Response.t :=
  match fuel with
  | O => MkJs [] OutOfFuel
  | S fuel' =>
      console_log this (LogRequest (Request.method cfg) (Request.url cfg));;
      console_log this (LogRequestData (Request.data cfg));;
      emit (Attempt n inst cfg);;
      match Axios.dispatch remote n inst cfg with
      | inr response =>
          console_log this
            (LogResponse (Response.status response)
                         (Response.statusText response));;
          mret response
      | inl error =>
          log this ("Response error: " +:+ AxiosError.message error);;
          match AxiosError.config error with
          | None =>
              throw (JsError.TypeError
                "Cannot read properties of undefined (reading '__retryCount')")
          | Some config0 =>
              let count := num_or (Request.__retryCount config0) 0 in
              let error := AxiosError.set_config
                             (Request.set_retryCount count config0) error in
              if (count <? Config.retries (config this))
                 && shouldRetry error then
                let count := count + 1 in
                let config1 := Request.set_retryCount count config0 in
                log this ("Retrying request (" +:+ pretty count +:+ "/"
                          +:+ pretty (Config.retries (config this))
                          +:+ ")");;
                let delay := 2 ^ count * 1000 in
                sleep delay;;
                request fuel' this inst (S n) config1
              else
                throw (enhanceError error)
          end
      end
  end.

Variable fuel : nat.

Definition client_send (this : t) (method : Request.Method)
    (url : string) (data : value) : Js Response.t :=
  match client this with
  | None =>
      throw (JsError.TypeError
        (match method with
         | Request.GET => "Cannot read properties of null (reading 'get')"
         | Request.POST => "Cannot read properties of null (reading 'post')"
         end))
  | Some inst =>
      request fuel this inst 0
        {| Request.method := method; Request.url := url;
           Request.data := data; Request.__retryCount := None |}
  end.

Definition client_post (this : t) (url : string) (data : value)
  : Js Response.t :=
  client_send this Request.POST url data.

Definition client_get (this : t) (url : string) : Js Response.t :=
  client_send this Request.GET url VUndefined.

(** An object literal *)
Definition obj (props : list (string * value)) : value :=
  VObj (list_to_map props).

Definition executeCommand (this : t) (type input : value) : Js value :=
  try_catch
    (response ← client_post this "/command"
                  (obj [("type", type); ("input", input)]);
     mret (Response.data response))
    (fun error =>
       log this ("Command execution failed: " +:+ JsError.message error);;
       throw error).

Definition getTools (this : t) : Js value :=
  try_catch
    (response ← client_get this "/tools";
     mret (Response.data response))
    (fun error =>
       log this ("Failed to fetch tools: " +:+ JsError.message error);;
       throw error).

Definition executeTool (this : t) (toolName parameters : value)
  : Js value :=
  let parameters := default_param (obj []) parameters in
  try_catch
    (response ← client_post this "/tools/execute"
                  (obj [("tool", toolName); ("parameters", parameters)]);
     mret (Response.data response))
    (fun error =>
       log this ("Tool execution failed: " +:+ JsError.message error);;
       throw error).

Definition analyzeCode (this : t) (code language analysisType options : value)
  : Js value :=
  let analysisType := default_param (VStr "summary") analysisType in
  let options := default_param (obj []) options in
  executeCommand this (VStr "code_analysis")
    (VObj (assign
             (list_to_map [("code", code); ("language", language);
                           ("analysisType", analysisType)])
             options)).

Definition extractDataLineage (this : t) (code language fileName : value)
  : Js value :=
  let fileName := default_param VNull fileName in
  executeCommand this (VStr "data_lineage_extraction")
    (obj [("code", code); ("language", language); ("fileName", fileName)]).

Definition sqlMetadataLookup (this : t) (sql options : value) : Js value :=
  let options := default_param (obj []) options in
  executeCommand this (VStr "sql_metadata_lookup")
    (VObj (assign (list_to_map [("sql", sql)]) options)).

Definition runWorkflow (this : t) (workflowName input : value) : Js value :=
  executeCommand this (VStr "custom_workflow")
    (VObj (assign (list_to_map [("workflowName", workflowName)]) input)).

Definition healthCheck (this : t) : Js value :=
  try_catch
    (response ← client_get this "/health";
     mret (Response.data response))
    (fun error =>
       log this ("Health check failed: " +:+ JsError.message error);;
       throw error).

Definition testConnection (this : t) : Js Probe.t :=
  try_catch
    (healthCheck this;;
     log this "Connection test successful";;
     mret {| Probe.success := true;
             Probe.message := "Connected to NetPad API successfully";
             Probe.error := None |})
    (fun error =>
       log this ("Connection test failed: " +:+ JsError.message error);;
       mret {| Probe.success := false;
               Probe.message :=
                 "Connection failed: " +:+ JsError.message error;
               Probe.error := Some error |}).

End Methods.

(** [updateConfig(newConfig)]: the object after the call and how the call
    ended. *)
Definition updateConfig (this : t) (newConfig : NewConfig.t)
  : t * Completion unit :=
  initialize {| config := NewConfig.merge (config this) newConfig;
                client := client this |}.

End NetPadApiClient.

(** ** Module level: the factory, the default instance and the
    convenience functions

    Client objects live in a store and are known by their address, so
    that two references can be told to be the same object. The
    module-level variable [defaultClient] holds [null] or an address. *)

Record Store := {
  heap : list NetPadApiClient.t;
  defaultClient : option nat
}.

(** The module as first loaded: [let defaultClient = null]. *)
Definition initial_store : Store := {| heap := []; defaultClient := None |}.

(** [new NetPadApiClient(options)]: the object is reachable only when the
    constructor returns normally. *)
Definition new_NetPadApiClient (env : Env.t) (options : Options.t)
    (st : Store) : Store * Completion nat :=
  match NetPadApiClient.constructor env options with
  | (this, Resolved _) =>
      ({| heap := heap st ++ [this]; defaultClient := defaultClient st |},
       Resolved (length (heap st)))
  | (_, Rejected error) => (st, Rejected error)
  | (_, OutOfFuel) => (st, OutOfFuel)
  end.

Definition createNetPadClient (env : Env.t) (options : Options.t)
    (st : Store) : Store * Completion nat :=
  new_NetPadApiClient env options st.

Definition getDefaultClient (env : Env.t) (st : Store)
  : Store * Js (option nat) :=
  match defaultClient st with
  | Some l => (st, mret (Some l))
  | None =>
      match new_NetPadApiClient env Options.empty st with
      | (st', Resolved l) =>
          ({| heap := heap st'; defaultClient := Some l |}, mret (Some l))
      | (st', Rejected error) =>
          (st',
           emit (ConsoleWarn "Failed to create default NetPad client:"
                             (JsError.message error));;
           mret None)
      | (st', OutOfFuel) => (st', MkJs [] OutOfFuel)
      end
  end.

Section Exports.

Variable remote : Axios.Remote.
Variable fuel : nat.

(** A method call [client.m(...)] through an address. An address handed
    out by this module always denotes an object of the store (see
    [store_ok]); the other branch is there for totality only. *)
Definition call {A} (st : Store) (l : nat)
    (m : NetPadApiClient.t -> Js A) : Js A :=
  match heap st !! l with
  | Some this => m this
  | None => MkJs [] OutOfFuel
  end.

Definition analyzeCode (env : Env.t) (st : Store)
    (code language analysisType : value) : Store * Js value :=
  let analysisType := default_param (VStr "summary") analysisType in
  let (st', found) := getDefaultClient env st in
  (st',
   client ← found;
   match client with
   | None => throw (JsError.Error "NetPad client not configured")
   | Some l =>
       call st' l (fun this =>
         NetPadApiClient.analyzeCode remote fuel this
           code language analysisType VUndefined)
   end).

Definition getTools (env : Env.t) (st : Store) : Store * Js value :=
  let (st', found) := getDefaultClient env st in
  (st',
   client ← found;
   match client with
   | None => throw (JsError.Error "NetPad client not configured")
   | Some l => call st' l (NetPadApiClient.getTools remote fuel)
   end).

Definition executeTool (env : Env.t) (st : Store)
    (toolName parameters : value) : Store * Js value :=
  let (st', found) := getDefaultClient env st in
  (st',
   client ← found;
   match client with
   | None => throw (JsError.Error "NetPad client not configured")
   | Some l =>
       call st' l (fun this =>
         NetPadApiClient.executeTool remote fuel this toolName parameters)
   end).

End Exports.

(** * Properties *)

(** ** Observing a trace *)

(** What a stopwatch next to the wire sees: attempts and timed waits, in
    order; console output takes no part. *)
Inductive Tick :=
| TAttempt
| TWait (ms : Z).

Definition tick (ev : Event) : option Tick :=
  match ev with
  | Attempt _ _ _ => Some TAttempt
  | Sleep ms => Some (TWait ms)
  | ConsoleLog _ | ConsoleWarn _ _ => None
  end.

Definition timeline (tr : list Event) : list Tick := omap tick tr.

Fixpoint count_attempts (tl : list Tick) : nat :=
  match tl with
  | [] => 0
  | TAttempt :: tl' => S (count_attempts tl')
  | TWait _ :: tl' => count_attempts tl'
  end.

(** Number of attempts made. *)
Definition attempts (tr : list Event) : nat := count_attempts (timeline tr).

(** The timed waits, in order. *)
Definition delays (tr : list Event) : list Z :=
  omap (fun t => match t with TWait ms => Some ms | TAttempt => None end)
       (timeline tr).


(** The schedule of an attempt followed by [m] retries, the first retry
    being retry number [first]: before retry [k] comes a wait of
    [2^k * 1000] ms. *)
Definition backoff (k : nat) : Z := 2 ^ Z.of_nat k * 1000.

Definition schedule (first m : nat) : list Tick :=
  TAttempt :: flat_map (fun k => [TWait (backoff k); TAttempt]) (seq first m).

(** [2^1 + ... + 2^n] *)
Definition sum_pow2 (n : nat) : Z :=
  foldr Z.add 0 (map (fun i => 2 ^ Z.of_nat i) (seq 1 n)).

(** The retry counter a configuration stands for. *)
Definition retryCount (cfg : Request.t) : Z :=
  num_or (Request.__retryCount cfg) 0.

(** The operations that send one logical request. *)
Inductive Operation :=
| ExecuteCommand (type input : value)
| GetTools
| ExecuteTool (toolName parameters : value)
| HealthCheck
| AnalyzeCode (code language analysisType options : value)
| ExtractDataLineage (code language fileName : value)
| SqlMetadataLookup (sql options : value)
| RunWorkflow (workflowName input : value).

Definition perform (remote : Axios.Remote) (fuel : nat)
    (this : NetPadApiClient.t) (op : Operation) : Js value :=
  match op with
  | ExecuteCommand type input =>
      NetPadApiClient.executeCommand remote fuel this type input
  | GetTools => NetPadApiClient.getTools remote fuel this
  | ExecuteTool toolName parameters =>
      NetPadApiClient.executeTool remote fuel this toolName parameters
  | HealthCheck => NetPadApiClient.healthCheck remote fuel this
  | AnalyzeCode code language analysisType options =>
      NetPadApiClient.analyzeCode remote fuel this
        code language analysisType options
  | ExtractDataLineage code language fileName =>
      NetPadApiClient.extractDataLineage remote fuel this
        code language fileName
  | SqlMetadataLookup sql options =>
      NetPadApiClient.sqlMetadataLookup remote fuel this sql options
  | RunWorkflow workflowName input =>
      NetPadApiClient.runWorkflow remote fuel this workflowName input
  end.

(** The shape shared by the four methods that talk to the transport. *)
Definition guarded (remote : Axios.Remote) (fuel : nat)
    (this : NetPadApiClient.t) (method : Request.Method) (url : string)
    (data : value) (failed : string) : Js value :=
  try_catch
    (response ← NetPadApiClient.client_send remote fuel this method url data;
     mret (Response.data response))
    (fun error =>
       NetPadApiClient.log this (failed +:+ JsError.message error);;
       throw error).

(** How a promise of a response settles as a promise of its body. *)
Definition body_of (c : Completion Response.t) : Completion value :=
  match c with
  | Resolved r => Resolved (Response.data r)
  | Rejected e => Rejected e
  | OutOfFuel => OutOfFuel
  end.

(** ** Remotes and clients used to state and instantiate the properties *)

(** Every attempt is answered, with status [s]. *)
Definition always_status (s : Z) (remote : Axios.Remote) : Prop :=
  forall n inst cfg, exists r,
    remote n inst cfg = Axios.Respond r /\ Response.status r = s.

(** The first attempt is answered, with status [s]. *)
Definition first_status (s : Z) (remote : Axios.Remote) : Prop :=
  forall inst cfg, exists r,
    remote 0%nat inst cfg = Axios.Respond r /\ Response.status r = s.

(** No attempt is ever answered. *)
Definition never_answers (remote : Axios.Remote) : Prop :=
  forall n inst cfg, exists msg, remote n inst cfg = Axios.NoResponse msg.

Definition remote_status (s : Z) : Axios.Remote :=
  fun _ _ _ =>
    Axios.Respond {| Response.status := s;
                     Response.statusText := "status text";
                     Response.data := VObj ∅ |}.

Definition remote_down : Axios.Remote :=
  fun _ _ _ => Axios.NoResponse "Network Error".

Definition env_with_key : Env.t :=
  {| Env.NETPAD_API_URL := None;
     Env.NETPAD_API_KEY := Some "mcp_key";
     Env.NETPAD_TIMEOUT := None;
     Env.NETPAD_RETRIES := None |}.

(** The client that [new NetPadApiClient()] builds under [env_with_key]. *)
Definition sample_client : NetPadApiClient.t :=
  (NetPadApiClient.constructor env_with_key Options.empty).1.

Definition sample_instance : Axios.Instance :=
  NetPadApiClient.axios_create (NetPadApiClient.config sample_client).

Definition options_zero_retries : Options.t :=
  {| Options.apiUrl := None;
     Options.apiKey := Some "mcp_key";
     Options.timeout := None;
     Options.retries := Some 0;
     Options.enableLogging := None |}.

Definition options_five_retries : Options.t :=
  {| Options.apiUrl := None;
     Options.apiKey := None;
     Options.timeout := None;
     Options.retries := Some 5;
     Options.enableLogging := None |}.

(** [sample_client] after [updateConfig({ retries: 0 })]. *)
Definition client_without_retries : NetPadApiClient.t :=
  (NetPadApiClient.updateConfig sample_client
     {| NewConfig.baseURL := None; NewConfig.apiKey := None;
        NewConfig.timeout := None; NewConfig.retries := Some 0;
        NewConfig.enableLogging := None |}).1.

Definition newConfig_empty_key : NewConfig.t :=
  {| NewConfig.baseURL := None; NewConfig.apiKey := Some "";
     NewConfig.timeout := None; NewConfig.retries := None;
     NewConfig.enableLogging := None |}.

(** [testConnection] resolved to the object it returns on success. *)
Definition probe_ok : NetPadApiClient.Probe.t :=
  {| NetPadApiClient.Probe.success := true;
     NetPadApiClient.Probe.message := "Connected to NetPad API successfully";
     NetPadApiClient.Probe.error := None |}.

(** [testConnection] resolved to the object it returns when [healthCheck]
    threw [e]. *)
Definition probe_failed (e : JsError.t) : NetPadApiClient.Probe.t :=
  {| NetPadApiClient.Probe.success := false;
     NetPadApiClient.Probe.message :=
       "Connection failed: " +:+ JsError.message e;
     NetPadApiClient.Probe.error := Some e |}.

(** Addresses held by a store denote objects of the store. *)
Definition store_ok (st : Store) : Prop :=
  forall l, defaultClient st = Some l -> is_Some (heap st !! l).


(** The environment and store in which the module is first asked for its
    default client, with the key set. *)
Definition store_with_default : Store :=
  (getDefaultClient env_with_key initial_store).1.

(** ** Vocabulary for the further properties *)

(** A reply after which the response interceptor goes round again: a
    response with status 500 or more, or 429; no response at all; a
    local failure that still carries the request configuration. *)
Definition transient (reply : Axios.Reply) : bool :=
  match reply with
  | Axios.Respond r =>
      (500 <=? Response.status r) || (Response.status r =? 429)
  | Axios.NoResponse _ => true
  | Axios.SetupFailure _ keepsConfig => keepsConfig
  end.


(** The attempts of a trace with what was put on the wire. *)
Definition wire (tr : list Event) : list (nat * Axios.Instance * Request.t) :=
  omap (fun ev => match ev with
                  | Attempt n inst cfg => Some (n, inst, cfg)
                  | _ => None
                  end) tr.

(** The console output of a trace. *)
Definition console (tr : list Event) : list Event :=
  List.filter (fun ev => match ev with
                         | ConsoleLog _ | ConsoleWarn _ _ => true
                         | _ => false
                         end) tr.

(** The configuration sent on the [k]-th attempt of a request that
    started as [cfg]: the counter is absent at first and [k] afterwards. *)
Definition resent (cfg : Request.t) (k : nat) : Request.t :=
  match k with
  | O => cfg
  | S _ => Request.set_retryCount (Z.of_nat k) cfg
  end.

(** The transport of the client is the one built from its stored
    configuration, and the stored key is not empty. *)
Definition consistent (this : NetPadApiClient.t) : Prop :=
  NetPadApiClient.client this
    = Some (NetPadApiClient.axios_create (NetPadApiClient.config this)) /\
  Config.apiKey (NetPadApiClient.config this) <> "".

(** Time waited in all. *)
Definition total_wait (tr : list Event) : Z := foldr Z.add 0 (delays tr).

(** A remote that answers 503 to the first [k] attempts and 200, with
    [body], from then on. *)
Definition remote_flaky (k : nat) (body : value) : Axios.Remote :=
  fun n _ _ =>
    if (n <? k)%nat
    then Axios.Respond {| Response.status := 503;
                          Response.statusText := "Service Unavailable";
                          Response.data := VNull |}
    else Axios.Respond {| Response.status := 200;
                          Response.statusText := "OK";
                          Response.data := body |}.

(** Everything in a trace but the console output. *)
Definition effects (tr : list Event) : list Event :=
  List.filter (fun ev => match ev with
                         | ConsoleLog _ | ConsoleWarn _ _ => false
                         | _ => true
                         end) tr.

(** The client with [enableLogging] set to [b] and nothing else changed. *)
Definition with_logging (b : bool) (this : NetPadApiClient.t)
  : NetPadApiClient.t :=
  {| NetPadApiClient.config :=
       {| Config.baseURL := Config.baseURL (NetPadApiClient.config this);
          Config.apiKey := Config.apiKey (NetPadApiClient.config this);
          Config.timeout := Config.timeout (NetPadApiClient.config this);
          Config.retries := Config.retries (NetPadApiClient.config this);
          Config.enableLogging := b |};
     NetPadApiClient.client := NetPadApiClient.client this |}.

(** The first request an operation hands to the transport. *)
Definition request_of (op : Operation) : Request.t :=
  let command (type input : value) :=
    {| Request.method := Request.POST; Request.url := "/command";
       Request.data :=
         NetPadApiClient.obj [("type", type); ("input", input)];
       Request.__retryCount := None |} in
  let fetch (url : string) :=
    {| Request.method := Request.GET; Request.url := url;
       Request.data := VUndefined; Request.__retryCount := None |} in
  match op with
  | ExecuteCommand type input => command type input
  | GetTools => fetch "/tools"
  | ExecuteTool toolName parameters =>
      {| Request.method := Request.POST; Request.url := "/tools/execute";
         Request.data :=
           NetPadApiClient.obj
             [("tool", toolName);
              ("parameters",
               default_param (NetPadApiClient.obj []) parameters)];
         Request.__retryCount := None |}
  | HealthCheck => fetch "/health"
  | AnalyzeCode code language analysisType options =>
      command (VStr "code_analysis")
        (VObj (assign
                 (list_to_map
                    [("code", code); ("language", language);
                     ("analysisType",
                      default_param (VStr "summary") analysisType)])
                 (default_param (NetPadApiClient.obj []) options)))
  | ExtractDataLineage code language fileName =>
      command (VStr "data_lineage_extraction")
        (NetPadApiClient.obj
           [("code", code); ("language", language);
            ("fileName", default_param VNull fileName)])
  | SqlMetadataLookup sql options =>
      command (VStr "sql_metadata_lookup")
        (VObj (assign (list_to_map [("sql", sql)])
                 (default_param (NetPadApiClient.obj []) options)))
  | RunWorkflow workflowName input =>
      command (VStr "custom_workflow")
        (VObj (assign (list_to_map [("workflowName", workflowName)])
                 input))
  end.

(** What the [catch] block of the method behind an operation logs before
    the error message. *)
Definition failure_prefix (op : Operation) : string :=
  match op with
  | GetTools => "Failed to fetch tools: "
  | ExecuteTool _ _ => "Tool execution failed: "
  | HealthCheck => "Health check failed: "
  | _ => "Command execution failed: "
  end.

(** The headers of the transport built for the key [key]. *)
Definition headers_for (key : string) : list (string * string) :=
  [("Content-Type", "application/json");
   ("X-API-Key", key);
   ("User-Agent", "NetPad-Extension/1.0.0")].

(** The engine's complaint when the response interceptor reads the
    counter of a failure that carries no configuration. *)
Definition lost_config : JsError.t :=
  JsError.TypeError
    "Cannot read properties of undefined (reading '__retryCount')".

(** The message of the error built for a failure with response [r]. *)
Definition response_message (r : Response.t) : string :=
  "NetPad API Error (" +:+ pretty (Response.status r) +:+ "): "
  +:+ (if truthy (get_opt "message" (Response.data r))
       then toString (get_opt "message" (Response.data r))
       else Response.statusText r).

(** A remote that answers 400 with a body explaining why. *)
Definition bad_request : Response.t :=
  {| Response.status := 400;
     Response.statusText := "Bad Request";
     Response.data := VObj {[ "message" := VStr "type is required" ]} |}.

Definition remote_bad_request : Axios.Remote :=
  fun _ _ _ => Axios.Respond bad_request.

(** A remote on which every attempt fails before anything is sent, the
    failure keeping the request configuration or not. *)
Definition remote_local_failure (keepsConfig : bool) : Axios.Remote :=
  fun _ _ _ => Axios.SetupFailure "Invalid URL" keepsConfig.

(** A remote that answers 503 three times and 429 from then on. *)
Definition remote_busy_then_limited : Axios.Remote :=
  fun n _ _ =>
    Axios.Respond
      {| Response.status := if (n <? 3)%nat then 503 else 429;
         Response.statusText := "";
         Response.data := VNull |}.

(** [sample_client] after [updateConfig({ apiKey: 'rotated', retries: 1 })]. *)
Definition newConfig_rotated : NewConfig.t :=
  {| NewConfig.baseURL := None; NewConfig.apiKey := Some "rotated";
     NewConfig.timeout := None; NewConfig.retries := Some 1;
     NewConfig.enableLogging := None |}.

(** [updateConfig({ apiKey: '', retries: 0 })] *)
Definition newConfig_broken : NewConfig.t :=
  {| NewConfig.baseURL := None; NewConfig.apiKey := Some "";
     NewConfig.timeout := None; NewConfig.retries := Some 0;
     NewConfig.enableLogging := None |}.

Definition options_with_key : Options.t :=
  {| Options.apiUrl := Some "https://example.test/api";
     Options.apiKey := Some "from_options";
     Options.timeout := None;
     Options.retries := None;
     Options.enableLogging := Some false |}.

(** ** The integration script: class [NetPadTester]

    From [scripts/testNetPadIntegration.js]: the tester object, the way it
    records results, its connection and error-handling suites and the
    figures of its report. What the script prints is kept, line by line,
    next to the events of the client it drives. The time stamp of a
    result is read from a clock the script does not control: [now k] is
    the reading taken when the [k]-th result is recorded. The remote may
    behave differently from one call of the script to the next: [world k]
    is the remote as it is during the [k]-th call of a suite. *)

Module NetPadTester.

Record Result := {
  test : string;
  success : bool;
  message : string;
  data : value;
  timestamp : string
}.

Record t := {
  client : option NetPadApiClient.t;
  testResults : list Result
}.

(** [console.log(...)], [console.error(...)] of the script, and the events
    of the client. *)
Inductive Output :=
| Out (args : list string)
| Err (args : list string)
| FromClient (ev : Event).

Record Run (A : Type) := MkRun {
  output : list Output;
  after : t;
  outcome : Completion A
}.
Arguments MkRun {A} output after outcome.
Arguments output {A} r.
Arguments after {A} r.
Arguments outcome {A} r.


Definition nl : string := String (Ascii.ascii_of_nat 10) EmptyString.

Definition constructor : t := {| client := None; testResults := [] |}.

Section Script.

Variable env : Env.t.
Variable world : nat -> Axios.Remote.
Variable fuel : nat.
Variable now : nat -> string.

Definition initialize (this : t) : Run unit :=
  let start := [Out ["🚀 Initializing NetPad API Tests..." +:+ nl]] in
  match NetPadApiClient.constructor env
          {| Options.apiUrl := None; Options.apiKey := None;
             Options.timeout := None; Options.retries := None;
             Options.enableLogging := Some true |} with
  | (object, Resolved _) =>
      MkRun (start ++ [Out ["✅ API client initialized successfully"]])
            {| client := Some object; testResults := testResults this |}
            (Resolved tt)
  | (_, Rejected error) =>
      MkRun (start ++ [Err ["❌ Failed to initialize API client:";
                            JsError.message error]])
            this (Rejected error)
  | (_, OutOfFuel) => MkRun start this OutOfFuel
  end.

Definition addResult (this : t) (testName : string) (success : bool)
    (message : string) (data : value) : t :=
  let data := default_param VNull data in
  {| client := client this;
     testResults :=
       testResults this ++
       [{| test := testName; success := success; message := message;
           data := data; timestamp := now (length (testResults this)) |}] |}.

(** [this.client.m(...)]: on a tester that was never initialised the
    property read on [null] throws. *)
Definition on_client {A} (this : t) (method : string)
    (m : NetPadApiClient.t -> Js A) : Js A :=
  match client this with
  | Some object => m object
  | None =>
      throw (JsError.TypeError
        ("Cannot read properties of null (reading '" +:+ method +:+ "')"))
  end.

Definition testConnection (this : t) : Run unit :=
  let start := [Out ["🔍 Testing API connection..."]] in
  let j := on_client this "testConnection"
             (NetPadApiClient.testConnection (world 0) fuel) in
  let seen := start ++ map FromClient (trace j) in
  match completion j with
  | Resolved result =>
      if NetPadApiClient.Probe.success result then
        MkRun (seen ++ [Out ["✅ Connection test passed"]])
              (addResult this "Connection Test" true
                 "Successfully connected to NetPad API" VUndefined)
              (Resolved tt)
      else
        MkRun (seen ++ [Out ["❌ Connection test failed:";
                             NetPadApiClient.Probe.message result]])
              (addResult this "Connection Test" false
                 (NetPadApiClient.Probe.message result) VUndefined)
              (Resolved tt)
  | Rejected error =>
      MkRun (seen ++ [Out ["❌ Connection test failed:";
                           JsError.message error]])
            (addResult this "Connection Test" false
               (JsError.message error) VUndefined)
            (Resolved tt)
  | OutOfFuel => MkRun seen this OutOfFuel
  end.

(** The three requests of [testErrorHandling], each expected to fail. *)
Definition errorTests (this : t)
  : list (string * (Axios.Remote -> Js value)) :=
  [("Invalid Command Type",
    fun remote =>
      on_client this "executeCommand" (fun object =>
        NetPadApiClient.executeCommand remote fuel object
          (VStr "invalid_command")
          (NetPadApiClient.obj [("code", VStr "test")])));
   ("Missing Required Fields",
    fun remote =>
      on_client this "executeCommand" (fun object =>
        NetPadApiClient.executeCommand remote fuel object
          (VStr "code_analysis") (NetPadApiClient.obj [])));
   ("Invalid Tool Name",
    fun remote =>
      on_client this "executeTool" (fun object =>
        NetPadApiClient.executeTool remote fuel object
          (VStr "nonexistent_tool") (NetPadApiClient.obj [])))].

(** The body of the [for] loop of [testErrorHandling], from the [k]-th
    call on. *)
Fixpoint errorLoop (tests : list (string * (Axios.Remote -> Js value)))
    (k : nat) (this : t) : Run unit :=
  match tests with
  | [] => MkRun [] this (Resolved tt)
  | (name, request) :: tests' =>
      let start := [Out [nl +:+ "   Testing: " +:+ name]] in
      let j := request (world k) in
      let seen := start ++ map FromClient (trace j) in
      match completion j with
      | Resolved _ =>
          let rest :=
            errorLoop tests' (S k)
              (addResult this name false "Expected error but got success"
                 VUndefined) in
          MkRun (seen ++ [Out ["   ⚠️  Expected error but got success"]]
                 ++ output rest)
                (after rest) (outcome rest)
      | Rejected error =>
          let rest :=
            errorLoop tests' (S k)
              (addResult this name true
                 ("Error properly handled: " +:+ JsError.message error)
                 VUndefined) in
          MkRun (seen ++ [Out ["   ✅ Error handling working: "
                               +:+ JsError.message error]]
                 ++ output rest)
                (after rest) (outcome rest)
      | OutOfFuel => MkRun seen this OutOfFuel
      end
  end.

Definition testErrorHandling (this : t) : Run unit :=
  let rest := errorLoop (errorTests this) 0 this in
  MkRun (Out [nl +:+ "🚨 Testing error handling..."] :: output rest)
        (after rest) (outcome rest).

End Script.



End NetPadTester.

(** The result the error-handling suite records for a request that
    settled as [c], as the result number [k]. *)
Definition verdict (now : nat -> string) (name : string)
    (c : Completion value) (k : nat) : NetPadTester.Result :=
  match c with
  | Rejected error =>
      {| NetPadTester.test := name;
         NetPadTester.success := true;
         NetPadTester.message :=
           "Error properly handled: " +:+ JsError.message error;
         NetPadTester.data := VNull;
         NetPadTester.timestamp := now k |}
  | _ =>
      {| NetPadTester.test := name;
         NetPadTester.success := false;
         NetPadTester.message := "Expected error but got success";
         NetPadTester.data := VNull;
         NetPadTester.timestamp := now k |}
  end.

(** The result the connection suite records when [healthCheck] settled
    as [c], as the result number [k]. *)
Definition connection_result (now : nat -> string) (c : Completion value)
    (k : nat) : NetPadTester.Result :=
  match c with
  | Rejected error =>
      {| NetPadTester.test := "Connection Test";
         NetPadTester.success := false;
         NetPadTester.message :=
           "Connection failed: " +:+ JsError.message error;
         NetPadTester.data := VNull;
         NetPadTester.timestamp := now k |}
  | _ =>
      {| NetPadTester.test := "Connection Test";
         NetPadTester.success := true;
         NetPadTester.message := "Successfully connected to NetPad API";
         NetPadTester.data := VNull;
         NetPadTester.timestamp := now k |}
  end.

(** The tester after [initialize()] under [env_with_key]. *)
Definition sample_tester : NetPadTester.t :=
  NetPadTester.after (NetPadTester.initialize env_with_key
                        NetPadTester.constructor).

Definition sample_clock (k : nat) : string := pretty k.

(** ** Basic facts *)

Lemma timeline_app (a b : list Event) :
  timeline (a ++ b) = timeline a ++ timeline b.
Proof. unfold timeline. apply omap_app. Qed.

Lemma timeline_log this msg :
  timeline (trace (NetPadApiClient.log this msg)) = [].
Proof.
  unfold NetPadApiClient.log.
  destruct (Config.enableLogging _); reflexivity.
Qed.

Lemma completion_log this msg :
  completion (NetPadApiClient.log this msg) = Resolved tt.
Proof.
  unfold NetPadApiClient.log.
  destruct (Config.enableLogging _); reflexivity.
Qed.

Lemma timeline_console_log this line :
  timeline (trace (NetPadApiClient.console_log this line)) = [].
Proof.
  unfold NetPadApiClient.console_log.
  destruct (Config.enableLogging _); reflexivity.
Qed.

Lemma completion_console_log this line :
  completion (NetPadApiClient.console_log this line) = Resolved tt.
Proof.
  unfold NetPadApiClient.console_log.
  destruct (Config.enableLogging _); reflexivity.
Qed.

Lemma trace_bind {A B} (m : Js A) (f : A -> Js B) :
  trace (m ≫= f)
  = match completion m with
    | Resolved a => trace m ++ trace (f a)
    | _ => trace m
    end.
Proof.
  unfold mbind, Js_bind, js_bind. destruct (completion m); reflexivity.
Qed.

Lemma completion_bind {A B} (m : Js A) (f : A -> Js B) :
  completion (m ≫= f)
  = match completion m with
    | Resolved a => completion (f a)
    | Rejected e => Rejected e
    | OutOfFuel => OutOfFuel
    end.
Proof.
  unfold mbind, Js_bind, js_bind. destruct (completion m); reflexivity.
Qed.

Lemma num_or_Some_0 (x : Z) : num_or (Some x) 0 = x.
Proof. unfold num_or. destruct (Z.eqb_spec x 0); congruence. Qed.

Lemma retryCount_set (c : Z) (cfg : Request.t) :
  retryCount (Request.set_retryCount c cfg) = c.
Proof. apply num_or_Some_0. Qed.

(** ** One pass through the interceptors *)

Ltac js_simpl :=
  repeat (rewrite ?trace_bind, ?completion_bind, ?timeline_app,
            ?completion_log, ?completion_console_log,
            ?timeline_log, ?timeline_console_log; simpl).

Lemma request_step remote fuel this inst n cfg :
  let j := NetPadApiClient.request remote (S fuel) this inst n cfg in
  match Axios.dispatch remote n inst cfg with
  | inr r => timeline (trace j) = [TAttempt] /\ completion j = Resolved r
  | inl e =>
      match AxiosError.config e with
      | None =>
          timeline (trace j) = [TAttempt] /\
          completion j = Rejected (JsError.TypeError
            "Cannot read properties of undefined (reading '__retryCount')")
      | Some c0 =>
          let count := retryCount c0 in
          let e' := AxiosError.set_config
                      (Request.set_retryCount count c0) e in
          if (count <? Config.retries (NetPadApiClient.config this))
             && NetPadApiClient.shouldRetry e'
          then
            let next := NetPadApiClient.request remote fuel this inst (S n)
                          (Request.set_retryCount (count + 1) c0) in
            timeline (trace j)
              = TAttempt :: TWait (2 ^ (count + 1) * 1000)
                  :: timeline (trace next) /\
            completion j = completion next
          else
            timeline (trace j) = [TAttempt] /\
            completion j = Rejected (NetPadApiClient.enhanceError e')
      end
  end.
Proof.
  cbv zeta. cbn [NetPadApiClient.request].
  destruct (Axios.dispatch remote n inst cfg) as [e|r].
  - destruct (AxiosError.config e) as [c0|].
    + fold (retryCount c0).
      destruct ((retryCount c0 <? _) && _).
      * unfold NetPadApiClient.sleep. js_simpl. split; reflexivity.
      * js_simpl. split; reflexivity.
    + js_simpl. split; reflexivity.
  - js_simpl. split; reflexivity.
Qed.

(** ** From the public methods down to [request] *)

Lemma perform_guarded remote fuel this op :
  exists method url data failed,
    perform remote fuel this op
    = guarded remote fuel this method url data failed.
Proof.
  destruct op; cbn [perform];
    unfold NetPadApiClient.analyzeCode, NetPadApiClient.extractDataLineage,
      NetPadApiClient.sqlMetadataLookup, NetPadApiClient.runWorkflow;
    unfold NetPadApiClient.executeCommand, NetPadApiClient.getTools,
      NetPadApiClient.executeTool, NetPadApiClient.healthCheck,
      NetPadApiClient.client_post, NetPadApiClient.client_get, guarded;
    cbv zeta; do 4 eexists; reflexivity.
Qed.

Lemma guarded_request remote fuel this inst method url data failed :
  NetPadApiClient.client this = Some inst ->
  let j := NetPadApiClient.request remote fuel this inst 0
             {| Request.method := method; Request.url := url;
                Request.data := data; Request.__retryCount := None |} in
  timeline (trace (guarded remote fuel this method url data failed))
    = timeline (trace j) /\
  completion (guarded remote fuel this method url data failed)
    = body_of (completion j).
Proof.
  intros Hc. cbv zeta.
  unfold guarded, NetPadApiClient.client_send, try_catch. rewrite Hc.
  set (j := NetPadApiClient.request _ _ _ _ _ _).
  rewrite completion_bind.
  destruct (completion j) as [r|e|] eqn:Hj; cbn [body_of].
  - js_simpl. rewrite Hj. js_simpl. rewrite app_nil_r. done.
  - js_simpl. rewrite Hj. js_simpl. rewrite app_nil_r. done.
  - js_simpl. rewrite Hj. done.
Qed.

Lemma perform_request remote fuel this inst op :
  NetPadApiClient.client this = Some inst ->
  exists cfg,
    Request.__retryCount cfg = None /\
    timeline (trace (perform remote fuel this op))
      = timeline (trace (NetPadApiClient.request remote fuel this inst 0 cfg))
    /\
    completion (perform remote fuel this op)
      = body_of (completion
                   (NetPadApiClient.request remote fuel this inst 0 cfg)).
Proof.
  intros Hc.
  destruct (perform_guarded remote fuel this op)
    as (method & url & data & failed & ->).
  eexists. split; [|exact (guarded_request remote fuel this inst method url
                             data failed Hc)].
  reflexivity.
Qed.

(** ** The schedule of attempts and waits *)

Lemma dispatch_config remote n inst cfg e :
  Axios.dispatch remote n inst cfg = inl e ->
  AxiosError.config e = None \/ AxiosError.config e = Some cfg.
Proof.
  unfold Axios.dispatch.
  destruct (remote n inst cfg) as [r|msg|msg [|]].
  - destruct (Axios.validateStatus _); [discriminate|].
    intros [= <-]. by right.
  - intros [= <-]. by right.
  - intros [= <-]. by right.
  - intros [= <-]. by left.
Qed.

Lemma backoff_next (c : Z) :
  0 <= c -> 2 ^ (c + 1) * 1000 = backoff (Z.to_nat c + 1).
Proof. intros Hc. unfold backoff. f_equal. f_equal. lia. Qed.

Lemma schedule_retry (first m : nat) :
  TAttempt :: TWait (backoff first) :: schedule (S first) m
  = schedule first (S m).
Proof. reflexivity. Qed.

(** Whatever the remote does, a logical request is an attempt followed by
    retries, the [k]-th of them after a wait of [2^k * 1000] ms, and it
    settles before the counter passes the limit. *)
Lemma request_schedule remote this inst fuel :
  forall n cfg,
    0 <= retryCount cfg ->
    (Z.to_nat (Config.retries (NetPadApiClient.config this)
               - retryCount cfg) < fuel)%nat ->
    let j := NetPadApiClient.request remote fuel this inst n cfg in
    exists m : nat,
      (m <= Z.to_nat (Config.retries (NetPadApiClient.config this)
                      - retryCount cfg))%nat /\
      timeline (trace j) = schedule (Z.to_nat (retryCount cfg) + 1) m /\
      completion j <> OutOfFuel.
Proof.
  induction fuel as [|fuel IH]; intros n cfg Hc Hfuel; [lia|].
  cbv zeta.
  pose proof (request_step remote fuel this inst n cfg) as Hstep.
  cbv zeta in Hstep.
  destruct (Axios.dispatch remote n inst cfg) as [e|r] eqn:Hd.
  - destruct (dispatch_config _ _ _ _ _ Hd) as [He|He]; rewrite He in Hstep.
    + destruct Hstep as [-> ->]. exists 0%nat. repeat split; [lia|done].
    + destruct ((retryCount cfg <? _) && _) eqn:Hretry.
      * apply andb_prop in Hretry as [Hlt%Z.ltb_lt _].
        destruct Hstep as [-> ->].
        destruct (IH (S n) (Request.set_retryCount (retryCount cfg + 1) cfg))
          as (m & Hm & Htl & Hfin).
        { rewrite retryCount_set. lia. }
        { rewrite retryCount_set. lia. }
        rewrite retryCount_set in Hm, Htl.
        exists (S m). repeat split; [lia| |done].
        rewrite Htl, backoff_next by done.
        replace (Z.to_nat (retryCount cfg + 1) + 1)%nat
          with (S (Z.to_nat (retryCount cfg) + 1)) by lia.
        apply schedule_retry.
      * destruct Hstep as [-> ->]. exists 0%nat. repeat split; [lia|done].
  - destruct Hstep as [-> ->]. exists 0%nat. repeat split; [lia|done].
Qed.

(** The outcome does not depend on the fuel, once there is enough of
    it. *)
Lemma request_fuel_irrelevant remote this inst fuel :
  forall fuel' n cfg,
    0 <= retryCount cfg ->
    (Z.to_nat (Config.retries (NetPadApiClient.config this)
               - retryCount cfg) < fuel)%nat ->
    (Z.to_nat (Config.retries (NetPadApiClient.config this)
               - retryCount cfg) < fuel')%nat ->
    NetPadApiClient.request remote fuel this inst n cfg
    = NetPadApiClient.request remote fuel' this inst n cfg.
Proof.
  induction fuel as [|fuel IH]; intros fuel' n cfg Hc Hfuel Hfuel'; [lia|].
  destruct fuel' as [|fuel']; [lia|].
  cbn [NetPadApiClient.request].
  destruct (Axios.dispatch remote n inst cfg) as [e|r] eqn:Hd; [|done].
  destruct (dispatch_config _ _ _ _ _ Hd) as [He|He]; rewrite He; [done|].
  fold (retryCount cfg).
  destruct ((retryCount cfg <? _) && _) eqn:Hretry; [|done].
  apply andb_prop in Hretry as [Hlt%Z.ltb_lt _].
  rewrite (IH fuel' (S n) (Request.set_retryCount (retryCount cfg + 1) cfg));
    [done|rewrite retryCount_set; lia..].
Qed.

Lemma shouldRetry_set_config cfg e :
  NetPadApiClient.shouldRetry (AxiosError.set_config cfg e)
  = NetPadApiClient.shouldRetry e.
Proof. reflexivity. Qed.

(** When every attempt fails in a retryable way, the counter runs up to
    the limit and the failure of the last attempt is the one reported. *)
Lemma request_exhaust remote this inst fuel :
  (forall n cfg, exists e,
      Axios.dispatch remote n inst cfg = inl e /\
      AxiosError.config e = Some cfg /\
      NetPadApiClient.shouldRetry e = true) ->
  forall n cfg,
    0 <= retryCount cfg <= Config.retries (NetPadApiClient.config this) ->
    (Z.to_nat (Config.retries (NetPadApiClient.config this)
               - retryCount cfg) < fuel)%nat ->
    let j := NetPadApiClient.request remote fuel this inst n cfg in
    timeline (trace j)
      = schedule (Z.to_nat (retryCount cfg) + 1)
          (Z.to_nat (Config.retries (NetPadApiClient.config this)
                     - retryCount cfg)) /\
    exists n' cfg' e,
      Axios.dispatch remote n' inst cfg' = inl e /\
      completion j
      = Rejected (NetPadApiClient.enhanceError
          (AxiosError.set_config
             (Request.set_retryCount
                (Config.retries (NetPadApiClient.config this)) cfg') e)).
Proof.
  intros Hfail.
  induction fuel as [|fuel IH]; intros n cfg Hc Hfuel; [lia|].
  cbv zeta.
  pose proof (request_step remote fuel this inst n cfg) as Hstep.
  cbv zeta in Hstep.
  destruct (Hfail n cfg) as (e & Hd & He & Hre).
  rewrite Hd, He, shouldRetry_set_config, Hre, andb_true_r in Hstep.
  destruct (Z.ltb_spec (retryCount cfg)
              (Config.retries (NetPadApiClient.config this))) as [Hlt|Hge].
  - destruct Hstep as [-> ->].
    destruct (IH (S n) (Request.set_retryCount (retryCount cfg + 1) cfg))
      as (Htl & Hrej).
    { rewrite retryCount_set. lia. }
    { rewrite retryCount_set. lia. }
    rewrite retryCount_set in Htl.
    split; [|exact Hrej].
    rewrite Htl, backoff_next by lia.
    replace (Z.to_nat (retryCount cfg + 1) + 1)%nat
      with (S (Z.to_nat (retryCount cfg) + 1)) by lia.
    rewrite schedule_retry. f_equal. lia.
  - destruct Hstep as [-> ->].
    assert (retryCount cfg = Config.retries (NetPadApiClient.config this))
      as Heq by lia.
    split.
    + rewrite Heq, Z.sub_diag. reflexivity.
    + exists n, cfg, e. split; [done|]. by rewrite Heq.
Qed.

Lemma attempts_schedule (first m : nat) :
  count_attempts (schedule first m) = S m.
Proof.
  unfold schedule. cbn. f_equal.
  revert first. induction m as [|m IH]; intros first; [done|].
  cbn. f_equal. apply IH.
Qed.

Lemma delays_schedule (first m : nat) :
  omap (fun t => match t with TWait ms => Some ms | TAttempt => None end)
       (schedule first m)
  = map backoff (seq first m).
Proof.
  unfold schedule. cbn.
  revert first. induction m as [|m IH]; intros first; [done|].
  cbn. f_equal. apply IH.
Qed.

Lemma sum_pow2_S (n : nat) :
  sum_pow2 (S n) = sum_pow2 n + 2 ^ Z.of_nat (S n).
Proof.
  unfold sum_pow2. rewrite seq_S, map_app, foldr_app. cbn [map foldr].
  generalize (seq 1 n). intros l.
  induction l as [|x l IH]; cbn [map foldr]; [cbn; lia|].
  rewrite IH. lia.
Qed.


Lemma sum_backoff (n : nat) :
  foldr Z.add 0 (map backoff (seq 1 n)) = 1000 * sum_pow2 n.
Proof.
  unfold sum_pow2.
  generalize (seq 1 n). intros l.
  induction l as [|x l IH]; cbn [map foldr]; [lia|].
  rewrite IH. unfold backoff. lia.
Qed.

(** ** Transient failures: retry until the limit *)

Lemma dispatch_status remote n inst cfg r :
  remote n inst cfg = Axios.Respond r ->
  Axios.validateStatus (Response.status r) = false ->
  exists e,
    Axios.dispatch remote n inst cfg = inl e /\
    AxiosError.config e = Some cfg /\
    AxiosError.request e = true /\
    AxiosError.response e = Some r.
Proof.
  intros Hr Hv. unfold Axios.dispatch. rewrite Hr, Hv.
  eexists. repeat split.
Qed.

Lemma dispatch_no_response remote n inst cfg msg :
  remote n inst cfg = Axios.NoResponse msg ->
  exists e,
    Axios.dispatch remote n inst cfg = inl e /\
    AxiosError.config e = Some cfg /\
    AxiosError.request e = true /\
    AxiosError.response e = None /\
    AxiosError.message e = msg.
Proof.
  intros Hr. unfold Axios.dispatch. rewrite Hr.
  eexists. repeat split.
Qed.

Lemma dispatch_response remote n inst cfg e r :
  Axios.dispatch remote n inst cfg = inl e ->
  remote n inst cfg = Axios.Respond r ->
  AxiosError.response e = Some r.
Proof.
  unfold Axios.dispatch. intros Hd Hr. rewrite Hr in Hd.
  destruct (Axios.validateStatus _); [discriminate|].
  by injection Hd as <-.
Qed.

(** C1: when every attempt of an operation is answered with status 429,
    the client whose retry limit is [R] makes exactly [R + 1] attempts,
    each failure being classified as retryable, and the operation then
    fails with an error whose [status] is 429. *)
Theorem always_429_exhausts_retries remote fuel this inst op :
  NetPadApiClient.client this = Some inst ->
  0 <= Config.retries (NetPadApiClient.config this) ->
  (Z.to_nat (Config.retries (NetPadApiClient.config this)) < fuel)%nat ->
  always_status 429 remote ->
  let j := perform remote fuel this op in
  Z.of_nat (attempts (trace j))
    = Config.retries (NetPadApiClient.config this) + 1 /\
  (forall n cfg, exists e,
      Axios.dispatch remote n inst cfg = inl e /\
      NetPadApiClient.shouldRetry e = true) /\
  exists e, completion j = Rejected e /\ JsError.status e = Some 429.
Proof.
  intros Hc HR Hfuel H429. cbv zeta.
  assert (forall n cfg, exists e,
             Axios.dispatch remote n inst cfg = inl e /\
             AxiosError.config e = Some cfg /\
             NetPadApiClient.shouldRetry e = true) as Hfail.
  { intros n cfg. destruct (H429 n inst cfg) as (r & Hr & Hs).
    destruct (dispatch_status remote n inst cfg r Hr) as (e & ? & ? & _ & He).
    { by rewrite Hs. }
    exists e. repeat split; [done..|].
    unfold NetPadApiClient.shouldRetry. by rewrite He, Hs. }
  destruct (perform_request remote fuel this inst op Hc)
    as (cfg & Hcount & Htl & Hcompl).
  assert (retryCount cfg = 0) as H0 by (unfold retryCount; by rewrite Hcount).
  destruct (request_exhaust remote this inst fuel Hfail 0%nat cfg)
    as (Hsched & n' & cfg' & e & Hd & Hrej).
  { lia. }
  { rewrite H0, Z.sub_0_r. done. }
  repeat split.
  - unfold attempts. rewrite Htl, Hsched, attempts_schedule, H0. lia.
  - intros n cfg0. destruct (Hfail n cfg0) as (e0 & ? & _ & ?). by exists e0.
  - rewrite Hcompl, Hrej. eexists. split; [reflexivity|].
    destruct (H429 n' inst cfg') as (r & Hr & Hs).
    unfold NetPadApiClient.enhanceError. cbn [AxiosError.set_config
      AxiosError.response].
    rewrite (dispatch_response _ _ _ _ _ _ Hd Hr). cbn. by rewrite Hs.
Qed.

Lemma always_429_exhausts_retries_witness :
  let j := perform (remote_status 429) 4 sample_client GetTools in
  Z.of_nat (attempts (trace j)) = 3 + 1 /\
  (forall n cfg, exists e,
      Axios.dispatch (remote_status 429) n sample_instance cfg = inl e /\
      NetPadApiClient.shouldRetry e = true) /\
  exists e, completion j = Rejected e /\ JsError.status e = Some 429.
Proof.
  apply (always_429_exhausts_retries (remote_status 429) 4 sample_client
           sample_instance GetTools).
  - reflexivity.
  - vm_compute. discriminate.
  - vm_compute. lia.
  - intros n inst cfg. eexists. split; reflexivity.
Defined.

(** ** Backoff *)



(** ** Permanent failures: no retry *)

(** C3: when the remote answers an operation with status 400, or any
    other 4xx status except 429, the client makes exactly one attempt,
    waits for no backoff, and the operation fails with an error whose
    [status] is that status. *)
Theorem client_error_is_not_retried remote fuel this inst op s :
  NetPadApiClient.client this = Some inst ->
  (0 < fuel)%nat ->
  400 <= s < 500 ->
  s <> 429 ->
  first_status s remote ->
  let j := perform remote fuel this op in
  attempts (trace j) = 1%nat /\
  delays (trace j) = [] /\
  exists e, completion j = Rejected e /\ JsError.status e = Some s.
Proof.
  intros Hc Hfuel Hs Hne Hfirst. cbv zeta.
  destruct (perform_request remote fuel this inst op Hc)
    as (cfg & Hcount & Htl & Hcompl).
  destruct fuel as [|fuel]; [lia|].
  pose proof (request_step remote fuel this inst 0%nat cfg) as Hstep.
  cbv zeta in Hstep.
  destruct (Hfirst inst cfg) as (r & Hr & Hsr).
  destruct (dispatch_status remote 0%nat inst cfg r Hr)
    as (e & Hd & He & _ & Hresp).
  { rewrite Hsr. unfold Axios.validateStatus. lia. }
  rewrite Hd, He in Hstep.
  replace (NetPadApiClient.shouldRetry _) with false in Hstep.
  2:{ unfold NetPadApiClient.shouldRetry. cbn. rewrite Hresp, Hsr. lia. }
  rewrite andb_false_r in Hstep. destruct Hstep as [Hone Hrej].
  unfold attempts, delays. rewrite Htl, Hone, Hcompl, Hrej.
  repeat split. eexists. split; [reflexivity|].
  unfold NetPadApiClient.enhanceError. cbn. rewrite Hresp. cbn.
  by rewrite Hsr.
Qed.

Lemma client_error_is_not_retried_witness :
  let j := perform (remote_status 400) 4 sample_client
             (ExecuteCommand (VStr "code_analysis") (VObj ∅)) in
  attempts (trace j) = 1%nat /\
  delays (trace j) = [] /\
  exists e, completion j = Rejected e /\ JsError.status e = Some 400.
Proof.
  apply (client_error_is_not_retried (remote_status 400) 4 sample_client
           sample_instance _ 400).
  - reflexivity.
  - lia.
  - lia.
  - discriminate.
  - intros inst cfg. eexists. split; reflexivity.
Defined.

(** ** Network failures *)

(** C4: when no response is ever received, the client retries as many
    times as its limit allows and the operation then fails with an error
    that has no [status], whose message is
    ["NetPad API Error: No response received (network error)"] and that
    retains the failure of the last attempt as [originalError]. *)
Theorem network_failure_is_reported_after_retries remote fuel this inst op :
  NetPadApiClient.client this = Some inst ->
  0 <= Config.retries (NetPadApiClient.config this) ->
  (Z.to_nat (Config.retries (NetPadApiClient.config this)) < fuel)%nat ->
  never_answers remote ->
  let j := perform remote fuel this op in
  let R := Config.retries (NetPadApiClient.config this) in
  timeline (trace j) = schedule 1 (Z.to_nat R) /\
  Z.of_nat (attempts (trace j)) = R + 1 /\
  exists e,
    completion j = Rejected e /\
    JsError.status e = None /\
    JsError.message e
      = "NetPad API Error: No response received (network error)" /\
    exists n cfg raw,
      Axios.dispatch remote n inst cfg = inl raw /\
      AxiosError.response raw = None /\
      JsError.originalError e
        = Some (AxiosError.set_config (Request.set_retryCount R cfg) raw).
Proof.
  intros Hc HR Hfuel Hdown. cbv zeta.
  assert (forall n cfg, exists e,
             Axios.dispatch remote n inst cfg = inl e /\
             AxiosError.config e = Some cfg /\
             NetPadApiClient.shouldRetry e = true) as Hfail.
  { intros n cfg. destruct (Hdown n inst cfg) as (msg & Hr).
    destruct (dispatch_no_response remote n inst cfg msg Hr)
      as (e & ? & ? & _ & He & _).
    exists e. repeat split; [done..|].
    unfold NetPadApiClient.shouldRetry. by rewrite He. }
  destruct (perform_request remote fuel this inst op Hc)
    as (cfg & Hcount & Htl & Hcompl).
  assert (retryCount cfg = 0) as H0 by (unfold retryCount; by rewrite Hcount).
  destruct (request_exhaust remote this inst fuel Hfail 0%nat cfg)
    as (Hsched & n' & cfg' & e & Hd & Hrej).
  { lia. }
  { rewrite H0, Z.sub_0_r. done. }
  rewrite H0, Z.sub_0_r in Hsched.
  change (Z.to_nat 0 + 1)%nat with 1%nat in Hsched.
  split; [by rewrite Htl|].
  split.
  { unfold attempts. rewrite Htl, Hsched, attempts_schedule. lia. }
  destruct (Hdown n' inst cfg') as (msg & Hr).
  destruct (dispatch_no_response remote n' inst cfg' msg Hr)
    as (e' & Hd' & _ & Hreq & Hresp & _).
  assert (e' = e) as -> by congruence.
  rewrite Hcompl, Hrej. eexists. split; [reflexivity|].
  unfold NetPadApiClient.enhanceError.
  cbn [AxiosError.set_config AxiosError.response AxiosError.request].
  rewrite Hresp, Hreq. cbn.
  repeat split. exists n', cfg', e. done.
Qed.

Lemma network_failure_is_reported_after_retries_witness :
  let j := perform remote_down 4 sample_client GetTools in
  timeline (trace j) = schedule 1 (Z.to_nat 3) /\
  Z.of_nat (attempts (trace j)) = 3 + 1 /\
  exists e,
    completion j = Rejected e /\
    JsError.status e = None /\
    JsError.message e
      = "NetPad API Error: No response received (network error)" /\
    exists n cfg raw,
      Axios.dispatch remote_down n sample_instance cfg = inl raw /\
      AxiosError.response raw = None /\
      JsError.originalError e
        = Some (AxiosError.set_config (Request.set_retryCount 3 cfg) raw).
Proof.
  apply (network_failure_is_reported_after_retries remote_down 4
           sample_client sample_instance GetTools).
  - reflexivity.
  - vm_compute. discriminate.
  - vm_compute. lia.
  - intros n inst cfg. eexists. reflexivity.
Defined.

(** ** Construction *)

Lemma str_or_empty (a : option string) (d : string) :
  str_or a d = "" <-> (a = None \/ a = Some "") /\ d = "".
Proof.
  unfold str_or. destruct a as [s|].
  - destruct (String.eqb_spec s "") as [->|Hs].
    + split; [intros ->; auto|by intros [_ ->]].
    + split; [done|]. intros [[|[= ->]] _]; done.
  - split; [intros ->; auto|by intros [_ ->]].
Qed.

(** The resolved key is empty exactly when neither the options nor the
    environment supply a non-empty one. *)
Lemma resolved_apiKey_empty env options :
  Config.apiKey (NetPadApiClient.resolveConfig env options) = ""
  <-> (Options.apiKey options = None \/ Options.apiKey options = Some "")
      /\ (Env.NETPAD_API_KEY env = None \/ Env.NETPAD_API_KEY env = Some "").
Proof.
  cbn. rewrite !str_or_empty. tauto.
Qed.

(** C5: whatever the other fields, constructing the client (constructor
    or factory) with an empty or missing resolved API key throws at once:
    the object under construction has no transport handle, and no client
    object comes into existence. *)
Theorem construction_requires_api_key env options st :
  Config.apiKey (NetPadApiClient.resolveConfig env options) = "" ->
  exists e,
    (NetPadApiClient.constructor env options).2 = Rejected e /\
    NetPadApiClient.client (NetPadApiClient.constructor env options).1
      = None /\
    new_NetPadApiClient env options st = (st, Rejected e) /\
    createNetPadClient env options st = (st, Rejected e).
Proof.
  intros Hkey.
  unfold createNetPadClient, new_NetPadApiClient,
    NetPadApiClient.constructor, NetPadApiClient.initialize.
  cbn [NetPadApiClient.config]. rewrite Hkey. cbn.
  eexists. repeat split.
Qed.

Lemma construction_requires_api_key_witness :
  exists e,
    (NetPadApiClient.constructor Env.empty Options.empty).2 = Rejected e /\
    NetPadApiClient.client
      (NetPadApiClient.constructor Env.empty Options.empty).1 = None /\
    new_NetPadApiClient Env.empty Options.empty initial_store
      = (initial_store, Rejected e) /\
    createNetPadClient Env.empty Options.empty initial_store
      = (initial_store, Rejected e).
Proof.
  apply (construction_requires_api_key Env.empty Options.empty
           initial_store).
  reflexivity.
Defined.

(** ** The retry limit *)

(** C6 at the override [retries: 0]: the override is not honoured. With
    no environment value the limit becomes 3, and a request that keeps
    failing is attempted four times instead of once. *)
Lemma zero_retries_override_is_ignored :
  Options.retries options_zero_retries = Some 0 /\
  Config.retries
    (NetPadApiClient.resolveConfig Env.empty options_zero_retries) = 3 /\
  attempts
    (trace (perform (remote_status 500) 8
              (NetPadApiClient.constructor Env.empty options_zero_retries).1
              GetTools))
  = 4%nat.
Proof. repeat split. Qed.

(** What the constructor does with a [retries] override: a positive one
    is the resolved limit, whatever the environment holds, while 0 falls
    through to the environment value and then to 3. A client whose stored
    limit is 0 attempts a request exactly once. *)
Theorem positive_retries_override_is_used env options n remote fuel this
    inst op :
  Options.retries options = Some n ->
  0 <= n ->
  NetPadApiClient.client this = Some inst ->
  Config.retries (NetPadApiClient.config this) = 0 ->
  (0 < fuel)%nat ->
  Config.retries (NetPadApiClient.resolveConfig env options)
    = (if n =? 0 then num_or (parseInt_env (Env.NETPAD_RETRIES env)) 3
       else n) /\
  attempts (trace (perform remote fuel this op)) = 1%nat.
Proof.
  intros Hn Hpos Hc H0 Hfuel. split.
  - cbn. rewrite Hn. reflexivity.
  - destruct (perform_request remote fuel this inst op Hc)
      as (cfg & Hcount & Htl & _).
    assert (retryCount cfg = 0) as Hr
      by (unfold retryCount; by rewrite Hcount).
    destruct (request_schedule remote this inst fuel 0%nat cfg)
      as (m & Hm & Hsched & _).
    { lia. }
    { rewrite H0, Hr. cbn. lia. }
    rewrite H0, Hr in Hm. cbn in Hm. assert (m = 0%nat) as -> by lia.
    unfold attempts. rewrite Htl, Hsched. reflexivity.
Qed.

Lemma positive_retries_override_is_used_witness :
  Config.retries
    (NetPadApiClient.resolveConfig env_with_key options_five_retries) = 5 /\
  attempts (trace (perform remote_down 1 client_without_retries GetTools))
  = 1%nat.
Proof.
  apply (positive_retries_override_is_used env_with_key
           options_five_retries 5 remote_down 1 client_without_retries
           sample_instance GetTools).
  - reflexivity.
  - lia.
  - reflexivity.
  - reflexivity.
  - lia.
Defined.

(** ** Reconfiguration *)

(** C7, as stated, fails: a rejected [updateConfig] does not leave the
    stored configuration as it was. *)
Lemma failed_updateConfig_changes_config :
  let after := NetPadApiClient.updateConfig sample_client
                 newConfig_empty_key in
  (exists e, after.2 = Rejected e) /\
  NetPadApiClient.config after.1 <> NetPadApiClient.config sample_client /\
  Config.apiKey (NetPadApiClient.config after.1) = "".
Proof.
  cbv zeta. repeat split.
  - eexists. reflexivity.
  - intros [=].
Qed.

(** C7, amended: [updateConfig] first stores the merged configuration and
    then re-validates the API key. If the merged key is empty the call
    fails and the transport handle is the one from before the call, the
    stored configuration being the merged one; otherwise the call
    succeeds and the transport is rebuilt from the merged configuration. *)
Theorem updateConfig_stores_then_validates this newConfig :
  let merged := NewConfig.merge (NetPadApiClient.config this) newConfig in
  let after := NetPadApiClient.updateConfig this newConfig in
  NetPadApiClient.config after.1 = merged /\
  if String.eqb (Config.apiKey merged) ""
  then (exists e, after.2 = Rejected e) /\
       NetPadApiClient.client after.1 = NetPadApiClient.client this
  else after.2 = Resolved tt /\
       NetPadApiClient.client after.1
         = Some (NetPadApiClient.axios_create merged).
Proof.
  cbv zeta. unfold NetPadApiClient.updateConfig, NetPadApiClient.initialize.
  cbn [NetPadApiClient.config NetPadApiClient.client].
  destruct (String.eqb _ ""); cbn; repeat split.
  eexists. reflexivity.
Qed.

(** ** Probing the connection *)

Lemma perform_settles remote fuel this op :
  (Z.to_nat (Config.retries (NetPadApiClient.config this)) < fuel)%nat ->
  completion (perform remote fuel this op) <> OutOfFuel.
Proof.
  intros Hfuel.
  destruct (NetPadApiClient.client this) as [inst|] eqn:Hc.
  - destruct (perform_request remote fuel this inst op Hc)
      as (cfg & Hcount & _ & ->).
    assert (retryCount cfg = 0) as H0
      by (unfold retryCount; by rewrite Hcount).
    destruct (request_schedule remote this inst fuel 0%nat cfg)
      as (m & _ & _ & Hfin).
    { lia. }
    { rewrite H0, Z.sub_0_r. done. }
    destruct (completion _); cbn; congruence.
  - destruct (perform_guarded remote fuel this op)
      as (method & url & data & failed & ->).
    unfold guarded, NetPadApiClient.client_send, try_catch. rewrite Hc.
    js_simpl. done.
Qed.

(** C8: whatever makes [healthCheck] fail (no response, an error status,
    a local failure), [testConnection] does not throw: it resolves to an
    object with a boolean [success], [{success: true, message}] when
    [healthCheck] succeeds and [{success: false, message, error}]
    otherwise. *)
Theorem testConnection_never_throws remote fuel this :
  (Z.to_nat (Config.retries (NetPadApiClient.config this)) < fuel)%nat ->
  match completion (NetPadApiClient.healthCheck remote fuel this) with
  | Resolved _ =>
      completion (NetPadApiClient.testConnection remote fuel this)
      = Resolved probe_ok
  | Rejected e =>
      completion (NetPadApiClient.testConnection remote fuel this)
      = Resolved (probe_failed e)
  | OutOfFuel => False
  end.
Proof.
  intros Hfuel.
  pose proof (perform_settles remote fuel this HealthCheck Hfuel) as Hfin.
  cbn [perform] in Hfin.
  unfold NetPadApiClient.testConnection, try_catch.
  rewrite !completion_bind.
  destruct (completion (NetPadApiClient.healthCheck remote fuel this))
    as [v|e|] eqn:Hh; [| |done].
  - js_simpl. rewrite ?Hh. js_simpl. reflexivity.
  - js_simpl. rewrite ?Hh. js_simpl. reflexivity.
Qed.

Lemma testConnection_never_throws_witness :
  match completion (NetPadApiClient.healthCheck remote_down 4 sample_client)
  with
  | Resolved _ =>
      completion (NetPadApiClient.testConnection remote_down 4 sample_client)
      = Resolved probe_ok
  | Rejected e =>
      completion (NetPadApiClient.testConnection remote_down 4 sample_client)
      = Resolved (probe_failed e)
  | OutOfFuel => False
  end.
Proof.
  apply (testConnection_never_throws remote_down 4 sample_client).
  vm_compute. lia.
Defined.

(** ** Convenience methods *)

(** C9: [analyzeCode(code, language, analysisType)] is
    [executeCommand('code_analysis', {code, language, analysisType})]:
    the same payload, the same requests, retries and errors, the same
    events and nothing more; a left-out [analysisType] is ['summary']. *)
Theorem analyzeCode_is_executeCommand remote fuel this code language
    analysisType :
  NetPadApiClient.analyzeCode remote fuel this code language analysisType
    VUndefined
  = NetPadApiClient.executeCommand remote fuel this (VStr "code_analysis")
      (NetPadApiClient.obj
         [("code", code); ("language", language);
          ("analysisType", default_param (VStr "summary") analysisType)])
  /\ default_param (VStr "summary") VUndefined = VStr "summary"
  /\ (analysisType <> VUndefined ->
      default_param (VStr "summary") analysisType = analysisType).
Proof.
  split; [|split].
  - unfold NetPadApiClient.analyzeCode, NetPadApiClient.obj, assign.
    cbn [default_param spread]. do 2 f_equal.
  - reflexivity.
  - destruct analysisType; done.
Qed.

Lemma analyzeCode_is_executeCommand_witness :
  NetPadApiClient.analyzeCode (remote_status 200) 4 sample_client
    (VStr "let x = 1;") (VStr "javascript") (VStr "summary") VUndefined
  = NetPadApiClient.executeCommand (remote_status 200) 4 sample_client
      (VStr "code_analysis")
      (NetPadApiClient.obj
         [("code", VStr "let x = 1;"); ("language", VStr "javascript");
          ("analysisType", VStr "summary")]).
Proof.
  destruct (analyzeCode_is_executeCommand (remote_status 200) 4
              sample_client (VStr "let x = 1;") (VStr "javascript")
              (VStr "summary")) as (Heq & _ & Hdef).
  rewrite Heq, Hdef; [reflexivity|discriminate].
Defined.

(** ** The default client *)

Lemma getDefaultClient_cases env st :
  match defaultClient st with
  | Some l => getDefaultClient env st = (st, mret (Some l))
  | None =>
      match NetPadApiClient.constructor env Options.empty with
      | (this, Resolved _) =>
          getDefaultClient env st
          = ({| heap := heap st ++ [this];
                defaultClient := Some (length (heap st)) |},
             mret (Some (length (heap st))))
      | (_, Rejected e) =>
          getDefaultClient env st
          = (st,
             emit (ConsoleWarn "Failed to create default NetPad client:"
                               (JsError.message e));;
             mret None)
      | (_, OutOfFuel) => False
      end
  end.
Proof.
  unfold getDefaultClient, new_NetPadApiClient.
  destruct (defaultClient st); [done|].
  unfold NetPadApiClient.constructor, NetPadApiClient.initialize.
  destruct (String.eqb _ ""); reflexivity.
Qed.


Lemma getDefaultClient_store_ok env st :
  store_ok st -> store_ok (getDefaultClient env st).1.
Proof.
  intros Hok.
  pose proof (getDefaultClient_cases env st) as Hcases.
  destruct (defaultClient st) as [l|] eqn:Hdef.
  - by rewrite Hcases.
  - destruct (NetPadApiClient.constructor env Options.empty)
      as [this [[]|e|]]; [| |done].
    + rewrite Hcases. intros l [= <-]. cbn.
      rewrite lookup_app_r, Nat.sub_diag by done. by eexists.
    + by rewrite Hcases.
Qed.

(** Once created, the default client is the object every module-level
    call works on: the second call finds the address the first one
    stored. *)
Lemma default_client_is_shared :
  (getDefaultClient env_with_key initial_store).2 = mret (Some 0%nat) /\
  getDefaultClient Env.empty store_with_default
  = (store_with_default, mret (Some 0%nat)) /\
  heap store_with_default = [sample_client].
Proof. repeat split. Qed.

(** ** Recovery after transient failures *)

Lemma transient_dispatch remote n inst cfg :
  transient (remote n inst cfg) = true ->
  exists e,
    Axios.dispatch remote n inst cfg = inl e /\
    AxiosError.config e = Some cfg /\
    NetPadApiClient.shouldRetry e = true.
Proof.
  unfold transient, Axios.dispatch, NetPadApiClient.shouldRetry.
  destruct (remote n inst cfg) as [r|msg|msg keeps]; intros H.
  - assert (Axios.validateStatus (Response.status r) = false) as ->
      by (unfold Axios.validateStatus; lia).
    eexists. repeat split. done.
  - eexists. repeat split.
  - subst keeps. eexists. repeat split.
Qed.




(** ** Bounds *)

Lemma sum_pow2_closed (n : nat) : sum_pow2 n = 2 ^ (Z.of_nat n + 1) - 2.
Proof.
  induction n as [|n IH]; [reflexivity|].
  rewrite sum_pow2_S, IH.
  replace (Z.of_nat (S n) + 1) with (Z.succ (Z.of_nat (S n))) by lia.
  rewrite Z.pow_succ_r by lia.
  replace (Z.of_nat n + 1) with (Z.of_nat (S n)) by lia. lia.
Qed.

Lemma sum_pow2_mono (m n : nat) : (m <= n)%nat -> sum_pow2 m <= sum_pow2 n.
Proof.
  intros H. rewrite !sum_pow2_closed.
  assert (2 ^ (Z.of_nat m + 1) <= 2 ^ (Z.of_nat n + 1)); [|lia].
  apply Z.pow_le_mono_r; lia.
Qed.

Lemma perform_bounded remote fuel this inst op :
  NetPadApiClient.client this = Some inst ->
  (Z.to_nat (Config.retries (NetPadApiClient.config this)) < fuel)%nat ->
  let j := perform remote fuel this op in
  let R := Z.to_nat (Config.retries (NetPadApiClient.config this)) in
  (1 <= attempts (trace j) <= R + 1)%nat /\
  0 <= total_wait (trace j) <= 1000 * (2 ^ (Z.of_nat R + 1) - 2) /\
  completion j <> OutOfFuel.
Proof.
  intros Hc Hfuel. cbv zeta.
  destruct (perform_request remote fuel this inst op Hc)
    as (cfg & Hcount & Htl & Hcompl).
  assert (retryCount cfg = 0) as H0 by (unfold retryCount; by rewrite Hcount).
  destruct (request_schedule remote this inst fuel 0%nat cfg)
    as (m & Hm & Hsched & Hfin).
  { lia. }
  { rewrite H0, Z.sub_0_r. done. }
  rewrite H0, Z.sub_0_r in Hm. rewrite H0 in Hsched.
  change (Z.to_nat 0 + 1)%nat with 1%nat in Hsched.
  unfold attempts, total_wait, delays.
  rewrite Htl, Hsched, attempts_schedule, delays_schedule, sum_backoff.
  pose proof (sum_pow2_mono m _ Hm) as Hmono.
  pose proof (sum_pow2_mono 0 m ltac:(lia)) as Hpos.
  rewrite <- sum_pow2_closed. change (sum_pow2 0) with 0 in Hpos.
  split; [lia|]. split; [lia|].
  rewrite Hcompl. intros Hbad. apply Hfin.
  destruct (completion (NetPadApiClient.request _ _ _ _ _ _));
    cbn in Hbad; congruence.
Qed.

(** X2: whatever the remote does, an operation makes at least one and at
    most [retries + 1] attempts (one when the limit is zero or negative),
    and the time it spends in backoff is at most
    [1000 * (2^(retries + 1) - 2)] ms. *)
Theorem attempts_and_wait_are_bounded remote fuel this inst op :
  NetPadApiClient.client this = Some inst ->
  (Z.to_nat (Config.retries (NetPadApiClient.config this)) < fuel)%nat ->
  let j := perform remote fuel this op in
  let R := Z.to_nat (Config.retries (NetPadApiClient.config this)) in
  (1 <= attempts (trace j) <= R + 1)%nat /\
  0 <= total_wait (trace j) <= 1000 * (2 ^ (Z.of_nat R + 1) - 2) /\
  completion j <> OutOfFuel.
Proof. exact (perform_bounded remote fuel this inst op). Qed.

Lemma attempts_and_wait_are_bounded_witness :
  let j := perform (remote_flaky 1 VNull) 4 sample_client GetTools in
  (1 <= attempts (trace j) <= Z.to_nat 3 + 1)%nat /\
  0 <= total_wait (trace j) <= 1000 * (2 ^ (Z.of_nat (Z.to_nat 3) + 1) - 2) /\
  completion j <> OutOfFuel.
Proof.
  apply (attempts_and_wait_are_bounded (remote_flaky 1 VNull) 4
           sample_client sample_instance GetTools).
  - reflexivity.
  - vm_compute. lia.
Defined.

(** ** Logging is a side channel *)

Lemma effects_app (a b : list Event) :
  effects (a ++ b) = effects a ++ effects b.
Proof. unfold effects. apply List.filter_app. Qed.

Lemma console_app (a b : list Event) :
  console (a ++ b) = console a ++ console b.
Proof. unfold console. apply List.filter_app. Qed.

Lemma wire_app (a b : list Event) : wire (a ++ b) = wire a ++ wire b.
Proof. unfold wire. apply omap_app. Qed.

Lemma effects_log this msg :
  effects (trace (NetPadApiClient.log this msg)) = [].
Proof.
  unfold NetPadApiClient.log. destruct (Config.enableLogging _); reflexivity.
Qed.

Lemma effects_console_log this line :
  effects (trace (NetPadApiClient.console_log this line)) = [].
Proof.
  unfold NetPadApiClient.console_log.
  destruct (Config.enableLogging _); reflexivity.
Qed.

Lemma wire_log this msg :
  wire (trace (NetPadApiClient.log this msg)) = [].
Proof.
  unfold NetPadApiClient.log. destruct (Config.enableLogging _); reflexivity.
Qed.

Lemma wire_console_log this line :
  wire (trace (NetPadApiClient.console_log this line)) = [].
Proof.
  unfold NetPadApiClient.console_log.
  destruct (Config.enableLogging _); reflexivity.
Qed.

Lemma quiet_log this msg :
  Config.enableLogging (NetPadApiClient.config this) = false ->
  trace (NetPadApiClient.log this msg) = [].
Proof. unfold NetPadApiClient.log. by intros ->. Qed.

Lemma quiet_console_log this line :
  Config.enableLogging (NetPadApiClient.config this) = false ->
  trace (NetPadApiClient.console_log this line) = [].
Proof. unfold NetPadApiClient.console_log. by intros ->. Qed.

Ltac fx_simpl :=
  repeat (rewrite ?trace_bind, ?completion_bind, ?effects_app, ?wire_app,
            ?console_app, ?completion_log, ?completion_console_log,
            ?effects_log, ?effects_console_log, ?wire_log,
            ?wire_console_log; simpl).

(** The trace and the outcome of one of the four transport methods, in
    terms of the request it makes. *)
Lemma guarded_trace remote fuel this method url data failed :
  let sent := NetPadApiClient.client_send remote fuel this method url data in
  let j := guarded remote fuel this method url data failed in
  completion j = body_of (completion sent) /\
  trace j
  = trace sent ++
    match completion sent with
    | Rejected e =>
        trace (NetPadApiClient.log this (failed +:+ JsError.message e))
    | _ => []
    end.
Proof.
  cbv zeta. unfold guarded, try_catch.
  set (sent := NetPadApiClient.client_send _ _ _ _ _ _).
  rewrite completion_bind.
  destruct (completion sent) as [r|e|] eqn:Hs; cbn [body_of].
  - js_simpl. rewrite Hs. js_simpl. by rewrite !app_nil_r.
  - js_simpl. rewrite Hs. js_simpl. by rewrite !app_nil_r.
  - js_simpl. rewrite Hs. by rewrite !app_nil_r.
Qed.

Lemma request_logging_irrelevant remote this inst b fuel :
  forall n cfg,
    let j := NetPadApiClient.request remote fuel this inst n cfg in
    let j' := NetPadApiClient.request remote fuel (with_logging b this)
                inst n cfg in
    effects (trace j') = effects (trace j) /\ completion j' = completion j.
Proof.
  induction fuel as [|fuel IH]; intros n cfg; cbv zeta; [done|].
  cbn [NetPadApiClient.request].
  destruct (Axios.dispatch remote n inst cfg) as [e|r].
  - destruct (AxiosError.config e) as [c0|].
    + cbn [with_logging NetPadApiClient.config Config.retries].
      destruct ((_ <? _) && _).
      * destruct (IH (S n)
          (Request.set_retryCount (num_or (Request.__retryCount c0) 0 + 1)
             c0)) as [Htr Hco].
        unfold NetPadApiClient.sleep. fx_simpl.
        cbn [with_logging NetPadApiClient.config Config.retries] in *.
        rewrite Htr, Hco. done.
      * fx_simpl. done.
    + fx_simpl. done.
  - fx_simpl. done.
Qed.

Lemma request_quiet remote this inst fuel :
  Config.enableLogging (NetPadApiClient.config this) = false ->
  forall n cfg,
    console (trace (NetPadApiClient.request remote fuel this inst n cfg))
    = [].
Proof.
  intros Hq.
  induction fuel as [|fuel IH]; intros n cfg; [done|].
  cbn [NetPadApiClient.request].
  destruct (Axios.dispatch remote n inst cfg) as [e|r].
  - destruct (AxiosError.config e) as [c0|].
    + destruct ((_ <? _) && _).
      * unfold NetPadApiClient.sleep. fx_simpl.
        rewrite !quiet_console_log, !quiet_log by done.
        rewrite IH. done.
      * fx_simpl. by rewrite !quiet_console_log, !quiet_log.
    + fx_simpl. by rewrite !quiet_console_log, !quiet_log.
  - fx_simpl. by rewrite !quiet_console_log.
Qed.

Lemma perform_request_of remote fuel this op :
  perform remote fuel this op
  = guarded remote fuel this
      (Request.method (request_of op)) (Request.url (request_of op))
      (Request.data (request_of op)) (failure_prefix op).
Proof. destruct op; reflexivity. Qed.

Lemma client_send_request remote fuel this inst op :
  NetPadApiClient.client this = Some inst ->
  NetPadApiClient.client_send remote fuel this
    (Request.method (request_of op)) (Request.url (request_of op))
    (Request.data (request_of op))
  = NetPadApiClient.request remote fuel this inst 0 (request_of op).
Proof.
  intros Hc. unfold NetPadApiClient.client_send. rewrite Hc.
  destruct op; reflexivity.
Qed.

(** X3: logging is a pure side channel. Switching [enableLogging] on or
    off changes neither the outcome of an operation nor anything it does
    apart from console output (the attempts, what they carry, the waits,
    their order); and with logging off an operation writes nothing to the
    console. *)
Theorem logging_does_not_change_behaviour remote fuel this op b :
  let j := perform remote fuel this op in
  let j' := perform remote fuel (with_logging b this) op in
  completion j' = completion j /\
  effects (trace j') = effects (trace j) /\
  console (trace (perform remote fuel (with_logging false this) op)) = [].
Proof.
  cbv zeta. rewrite !perform_request_of.
  set (method := Request.method (request_of op)).
  set (url := Request.url (request_of op)).
  set (data := Request.data (request_of op)).
  set (failed := failure_prefix op).
  assert (forall b',
    completion (NetPadApiClient.client_send remote fuel
                  (with_logging b' this) method url data)
    = completion (NetPadApiClient.client_send remote fuel this
                    method url data) /\
    effects (trace (NetPadApiClient.client_send remote fuel
                      (with_logging b' this) method url data))
    = effects (trace (NetPadApiClient.client_send remote fuel this
                        method url data))) as Hsend.
  { intros b'. unfold NetPadApiClient.client_send.
    cbn [with_logging NetPadApiClient.client].
    destruct (NetPadApiClient.client this) as [inst|]; [|done].
    destruct (request_logging_irrelevant remote this inst b' fuel 0%nat
                {| Request.method := method; Request.url := url;
                   Request.data := data; Request.__retryCount := None |})
      as [Htr Hco].
    done. }
  assert (forall that,
    effects (trace (guarded remote fuel that method url data failed))
    = effects (trace (NetPadApiClient.client_send remote fuel that
                        method url data))) as Hguard.
  { intros that.
    destruct (guarded_trace remote fuel that method url data failed)
      as [_ ->].
    rewrite effects_app.
    destruct (completion
                (NetPadApiClient.client_send remote fuel that method url
                   data));
      rewrite ?effects_log; cbn [effects List.filter];
      by rewrite app_nil_r. }
  destruct (Hsend b) as [Hco Htr].
  split; [|split].
  - destruct (guarded_trace remote fuel this method url data failed)
      as [-> _].
    destruct (guarded_trace remote fuel (with_logging b this) method url
                data failed) as [-> _].
    by rewrite Hco.
  - by rewrite !Hguard.
  - destruct (guarded_trace remote fuel (with_logging false this) method
                url data failed) as [_ ->].
    rewrite console_app.
    assert (console (trace (NetPadApiClient.client_send remote fuel
                              (with_logging false this) method url data))
            = []) as ->.
    { unfold NetPadApiClient.client_send.
      destruct (NetPadApiClient.client _); [|done].
      by apply request_quiet. }
    destruct (completion
                (NetPadApiClient.client_send remote fuel
                   (with_logging false this) method url data));
      [done| |done].
    by rewrite quiet_log.
Qed.

(** ** What is put on the wire *)

Lemma request_step_wire remote fuel this inst n cfg :
  let j := NetPadApiClient.request remote (S fuel) this inst n cfg in
  match Axios.dispatch remote n inst cfg with
  | inr r => wire (trace j) = [(n, inst, cfg)]
  | inl e =>
      match AxiosError.config e with
      | None => wire (trace j) = [(n, inst, cfg)]
      | Some c0 =>
          let count := retryCount c0 in
          let e' := AxiosError.set_config
                      (Request.set_retryCount count c0) e in
          if (count <? Config.retries (NetPadApiClient.config this))
             && NetPadApiClient.shouldRetry e'
          then
            wire (trace j)
            = (n, inst, cfg)
                :: wire (trace (NetPadApiClient.request remote fuel this
                                  inst (S n)
                                  (Request.set_retryCount (count + 1) c0)))
          else wire (trace j) = [(n, inst, cfg)]
      end
  end.
Proof.
  cbv zeta. cbn [NetPadApiClient.request].
  destruct (Axios.dispatch remote n inst cfg) as [e|r].
  - destruct (AxiosError.config e) as [c0|].
    + fold (retryCount c0).
      destruct ((retryCount c0 <? _) && _).
      * unfold NetPadApiClient.sleep. fx_simpl. reflexivity.
      * fx_simpl. reflexivity.
    + fx_simpl. reflexivity.
  - fx_simpl. reflexivity.
Qed.

Lemma set_retryCount_twice (a b : Z) (cfg : Request.t) :
  Request.set_retryCount a (Request.set_retryCount b cfg)
  = Request.set_retryCount a cfg.
Proof. reflexivity. Qed.

Lemma request_wire remote this inst fuel :
  forall n cfg,
    0 <= retryCount cfg ->
    (Z.to_nat (Config.retries (NetPadApiClient.config this)
               - retryCount cfg) < fuel)%nat ->
    let j := NetPadApiClient.request remote fuel this inst n cfg in
    exists m : nat,
      timeline (trace j) = schedule (Z.to_nat (retryCount cfg) + 1) m /\
      wire (trace j)
      = (n, inst, cfg)
          :: map (fun i : nat =>
                    ((n + i)%nat, inst,
                     Request.set_retryCount (retryCount cfg + Z.of_nat i)
                       cfg))
               (seq 1 m).
Proof.
  induction fuel as [|fuel IH]; intros n cfg Hc Hfuel; [lia|].
  cbv zeta.
  pose proof (request_step remote fuel this inst n cfg) as Hstep.
  pose proof (request_step_wire remote fuel this inst n cfg) as Hwire.
  cbv zeta in Hstep, Hwire.
  destruct (Axios.dispatch remote n inst cfg) as [e|r] eqn:Hd.
  - destruct (dispatch_config _ _ _ _ _ Hd) as [He|He];
      rewrite He in Hstep, Hwire.
    + destruct Hstep as [-> _]. rewrite Hwire. by exists 0%nat.
    + destruct ((retryCount cfg <? _) && _) eqn:Hretry.
      * apply andb_prop in Hretry as [Hlt%Z.ltb_lt _].
        destruct Hstep as [-> _]. rewrite Hwire.
        destruct (IH (S n) (Request.set_retryCount (retryCount cfg + 1) cfg))
          as (m & Htl & Hw).
        { rewrite retryCount_set. lia. }
        { rewrite retryCount_set. lia. }
        rewrite retryCount_set in Htl, Hw.
        exists (S m). split.
        -- rewrite Htl, backoff_next by done.
           replace (Z.to_nat (retryCount cfg + 1) + 1)%nat
             with (S (Z.to_nat (retryCount cfg) + 1)) by lia.
           apply schedule_retry.
        -- rewrite Hw. f_equal. cbn [seq map].
           replace (n + 1)%nat with (S n) by lia.
           replace (retryCount cfg + Z.of_nat 1)
             with (retryCount cfg + 1) by lia.
           f_equal.
           rewrite <- (seq_shift m 1), map_map. apply map_ext. intros i.
           rewrite set_retryCount_twice.
           replace (S n + i)%nat with (n + S i)%nat by lia.
           replace (retryCount cfg + 1 + Z.of_nat i)
             with (retryCount cfg + Z.of_nat (S i)) by lia.
           reflexivity.
      * destruct Hstep as [-> _]. rewrite Hwire. by exists 0%nat.
  - destruct Hstep as [-> _]. rewrite Hwire. by exists 0%nat.
Qed.

Lemma perform_wire remote fuel this inst op :
  NetPadApiClient.client this = Some inst ->
  (Z.to_nat (Config.retries (NetPadApiClient.config this)) < fuel)%nat ->
  let j := perform remote fuel this op in
  wire (trace j)
  = map (fun k : nat => (k, inst, resent (request_of op) k))
        (seq 0 (attempts (trace j))) /\
  (forall k, Request.method (resent (request_of op) k)
               = Request.method (request_of op) /\
             Request.url (resent (request_of op) k)
               = Request.url (request_of op) /\
             Request.data (resent (request_of op) k)
               = Request.data (request_of op)).
Proof.
  intros Hc Hfuel. cbv zeta. split; [|by intros [|k]].
  rewrite perform_request_of.
  destruct (guarded_trace remote fuel this
              (Request.method (request_of op)) (Request.url (request_of op))
              (Request.data (request_of op)) (failure_prefix op))
    as [_ Htr].
  unfold attempts. rewrite Htr, timeline_app, wire_app.
  rewrite (client_send_request remote fuel this inst op Hc).
  set (j := NetPadApiClient.request _ _ _ _ _ _).
  assert (wire (match completion j with
                | Rejected e =>
                    trace (NetPadApiClient.log this
                             (failure_prefix op +:+ JsError.message e))
                | _ => []
                end) = [] /\
          timeline (match completion j with
                    | Rejected e =>
                        trace (NetPadApiClient.log this
                                 (failure_prefix op +:+ JsError.message e))
                    | _ => []
                    end) = []) as [-> ->].
  { destruct (completion j); rewrite ?wire_log, ?timeline_log; done. }
  rewrite !app_nil_r.
  assert (retryCount (request_of op) = 0) as H0 by (by destruct op).
  destruct (request_wire remote this inst fuel 0%nat (request_of op))
    as (m & Htl & Hw).
  { lia. }
  { rewrite H0, Z.sub_0_r. done. }
  fold j in Htl, Hw. rewrite Htl, Hw, attempts_schedule, H0.
  cbn [seq map resent]. f_equal.
  rewrite <- (seq_shift m 0), !map_map. apply map_ext. intros i.
  cbn [resent Nat.add]. rewrite Z.add_0_l. reflexivity.
Qed.



(** ** Error normalisation *)



Lemma response_message_bad_request :
  response_message bad_request = "NetPad API Error (400): type is required".
Proof. vm_compute. reflexivity. Qed.



(** X7: a failure that reaches the response interceptor without a request
    configuration is not normalised. Reading the retry counter throws, so
    the operation rejects after one attempt with a [TypeError] that has no
    [status] and no [originalError], whatever the retry limit. *)
Theorem failure_without_config_escapes remote fuel this inst op :
  NetPadApiClient.client this = Some inst ->
  (0 < fuel)%nat ->
  (forall cfg, exists msg,
      remote 0%nat inst cfg = Axios.SetupFailure msg false) ->
  let j := perform remote fuel this op in
  attempts (trace j) = 1%nat /\
  completion j = Rejected lost_config /\
  JsError.name lost_config = "TypeError" /\
  JsError.originalError lost_config = None.
Proof.
  intros Hc Hfuel Hlost. cbv zeta.
  destruct (perform_request remote fuel this inst op Hc)
    as (cfg & Hcount & Htl & Hcompl).
  destruct fuel as [|fuel]; [lia|].
  pose proof (request_step remote fuel this inst 0%nat cfg) as Hstep.
  cbv zeta in Hstep.
  destruct (Hlost cfg) as (msg & Hr).
  unfold Axios.dispatch in Hstep. rewrite Hr in Hstep.
  cbn [AxiosError.config] in Hstep. destruct Hstep as [Hone Hrej].
  unfold attempts. rewrite Htl, Hone, Hcompl, Hrej. done.
Qed.

Lemma failure_without_config_escapes_witness :
  let j := perform (remote_local_failure false) 4 sample_client
             HealthCheck in
  attempts (trace j) = 1%nat /\
  completion j = Rejected lost_config /\
  JsError.name lost_config = "TypeError" /\
  JsError.originalError lost_config = None.
Proof.
  apply (failure_without_config_escapes (remote_local_failure false) 4
           sample_client sample_instance HealthCheck).
  - reflexivity.
  - lia.
  - intros cfg. by eexists.
Defined.

Lemma request_exhaust_last remote this inst fuel :
  (forall n cfg, transient (remote n inst cfg) = true) ->
  forall n cfg,
    0 <= retryCount cfg <= Config.retries (NetPadApiClient.config this) ->
    (Z.to_nat (Config.retries (NetPadApiClient.config this)
               - retryCount cfg) < fuel)%nat ->
    exists cfg' e,
      Axios.dispatch remote
        (n + Z.to_nat (Config.retries (NetPadApiClient.config this)
                       - retryCount cfg))%nat inst cfg' = inl e /\
      completion (NetPadApiClient.request remote fuel this inst n cfg)
      = Rejected (NetPadApiClient.enhanceError
          (AxiosError.set_config
             (Request.set_retryCount
                (Config.retries (NetPadApiClient.config this)) cfg') e)).
Proof.
  intros Hfail.
  induction fuel as [|fuel IH]; intros n cfg Hc Hfuel; [lia|].
  pose proof (request_step remote fuel this inst n cfg) as Hstep.
  cbv zeta in Hstep.
  destruct (transient_dispatch remote n inst cfg (Hfail n cfg))
    as (e & Hd & He & Hre).
  rewrite Hd, He, shouldRetry_set_config, Hre, andb_true_r in Hstep.
  destruct (Z.ltb_spec (retryCount cfg)
              (Config.retries (NetPadApiClient.config this))) as [Hlt|Hge].
  - destruct Hstep as [_ ->].
    destruct (IH (S n) (Request.set_retryCount (retryCount cfg + 1) cfg))
      as (cfg' & e' & Hd' & Hrej).
    { rewrite retryCount_set. lia. }
    { rewrite retryCount_set. lia. }
    rewrite retryCount_set in Hd'.
    exists cfg', e'. split; [|done].
    replace (n + Z.to_nat (Config.retries (NetPadApiClient.config this)
                           - retryCount cfg))%nat
      with (S n + Z.to_nat (Config.retries (NetPadApiClient.config this)
                            - (retryCount cfg + 1)))%nat by lia.
    done.
  - destruct Hstep as [_ ->].
    assert (retryCount cfg = Config.retries (NetPadApiClient.config this))
      as Heq by lia.
    exists cfg, e. rewrite <- Heq, Z.sub_diag, Nat.add_0_r. done.
Qed.

(** X8: when every attempt fails transiently, the error reported is the
    one of the last attempt, the earlier failures leaving no trace in it:
    if the last of the [retries + 1] attempts is answered by the response
    [r], the error carries the status, the body and the message of [r]. *)
Theorem last_failure_is_the_one_reported remote fuel this inst op r :
  NetPadApiClient.client this = Some inst ->
  0 <= Config.retries (NetPadApiClient.config this) ->
  (Z.to_nat (Config.retries (NetPadApiClient.config this)) < fuel)%nat ->
  (forall n cfg, transient (remote n inst cfg) = true) ->
  (forall cfg,
      remote (Z.to_nat (Config.retries (NetPadApiClient.config this)))
        inst cfg = Axios.Respond r) ->
  exists e,
    completion (perform remote fuel this op) = Rejected e /\
    JsError.status e = Some (Response.status r) /\
    JsError.data e = Some (Response.data r) /\
    JsError.message e = response_message r.
Proof.
  intros Hc HR Hfuel Hfail Hlast.
  destruct (perform_request remote fuel this inst op Hc)
    as (cfg & Hcount & _ & Hcompl).
  assert (retryCount cfg = 0) as H0 by (unfold retryCount; by rewrite Hcount).
  destruct (request_exhaust_last remote this inst fuel Hfail 0%nat cfg)
    as (cfg' & e & Hd & Hrej).
  { lia. }
  { rewrite H0, Z.sub_0_r. done. }
  rewrite H0, Z.sub_0_r, Nat.add_0_l in Hd.
  rewrite Hcompl, Hrej. eexists. split; [reflexivity|].
  pose proof (dispatch_response _ _ _ _ _ _ Hd (Hlast cfg')) as Hresp.
  unfold NetPadApiClient.enhanceError, response_message, JS.or.
  cbn [AxiosError.set_config AxiosError.response]. rewrite Hresp.
  cbn [JsError.status JsError.data JsError.message].
  repeat split. by destruct (truthy _).
Qed.

Lemma last_failure_is_the_one_reported_witness :
  exists e,
    completion (perform remote_busy_then_limited 4 sample_client GetTools)
    = Rejected e /\
    JsError.status e = Some 429 /\
    JsError.data e = Some VNull /\
    JsError.message e
    = response_message {| Response.status := 429;
                          Response.statusText := "";
                          Response.data := VNull |}.
Proof.
  apply (last_failure_is_the_one_reported remote_busy_then_limited 4
           sample_client sample_instance GetTools
           {| Response.status := 429; Response.statusText := "";
              Response.data := VNull |}).
  - reflexivity.
  - vm_compute. discriminate.
  - vm_compute. lia.
  - intros n cfg. unfold remote_busy_then_limited, transient.
    cbn [Response.status]. destruct (n <? 3)%nat; reflexivity.
  - reflexivity.
Defined.

(** ** What a caller can be thrown *)

Lemma request_rejections remote this inst fuel :
  forall n cfg e,
    completion (NetPadApiClient.request remote fuel this inst n cfg)
    = Rejected e ->
    e = lost_config \/
    exists n' cfg' c raw,
      Axios.dispatch remote n' inst cfg' = inl raw /\
      e = NetPadApiClient.enhanceError
            (AxiosError.set_config (Request.set_retryCount c cfg') raw).
Proof.
  induction fuel as [|fuel IH]; intros n cfg e Hrej; [done|].
  pose proof (request_step remote fuel this inst n cfg) as Hstep.
  cbv zeta in Hstep.
  destruct (Axios.dispatch remote n inst cfg) as [raw|r] eqn:Hd.
  - destruct (dispatch_config _ _ _ _ _ Hd) as [He|He]; rewrite He in Hstep.
    + destruct Hstep as [_ Hco]. rewrite Hco in Hrej.
      injection Hrej as <-. by left.
    + destruct ((retryCount cfg <? _) && _).
      * destruct Hstep as [_ Hco]. rewrite Hco in Hrej.
        by apply IH in Hrej.
      * destruct Hstep as [_ Hco]. rewrite Hco in Hrej.
        injection Hrej as <-. right. by exists n, cfg, (retryCount cfg), raw.
  - destruct Hstep as [_ Hco]. rewrite Hco in Hrej. discriminate.
Qed.

Lemma enhanceError_shape e :
  let err := NetPadApiClient.enhanceError e in
  JsError.name err = "Error" /\
  JsError.originalError err = Some e /\
  JsError.status err = Response.status <$> AxiosError.response e /\
  JsError.data err = Response.data <$> AxiosError.response e /\
  String.prefix "NetPad API Error" (JsError.message err) = true.
Proof.
  cbv zeta. unfold NetPadApiClient.enhanceError.
  destruct (AxiosError.response e) as [r|]; cbn; [done|].
  destruct (AxiosError.request e); done.
Qed.

(** X9: an operation on a client with a transport rejects in one of two
    ways only. Either the failure carried no request configuration and
    the rejection is the interceptor's own [TypeError]; or it is a
    normalised error: its message starts with ["NetPad API Error"], it
    retains the failure of some attempt as [originalError], and it has a
    [status] and [data] exactly when that attempt was answered. *)
Theorem rejections_are_normalised_or_lost_config remote fuel this inst op e :
  NetPadApiClient.client this = Some inst ->
  completion (perform remote fuel this op) = Rejected e ->
  e = lost_config \/
  exists raw,
    JsError.name e = "Error" /\
    JsError.originalError e = Some raw /\
    JsError.status e = Response.status <$> AxiosError.response raw /\
    JsError.data e = Response.data <$> AxiosError.response raw /\
    String.prefix "NetPad API Error" (JsError.message e) = true /\
    exists n cfg raw0,
      Axios.dispatch remote n inst cfg = inl raw0 /\
      AxiosError.message raw = AxiosError.message raw0 /\
      AxiosError.response raw = AxiosError.response raw0.
Proof.
  intros Hc Hrej.
  destruct (perform_request remote fuel this inst op Hc)
    as (cfg & _ & _ & Hcompl).
  rewrite Hcompl in Hrej.
  destruct (completion (NetPadApiClient.request remote fuel this inst 0 cfg))
    as [r|e'|] eqn:Hreq; cbn in Hrej; [done| |done].
  injection Hrej as ->.
  destruct (request_rejections remote this inst fuel _ _ _ Hreq)
    as [->|(n' & cfg' & c & raw & Hd & ->)]; [by left|right].
  eexists.
  destruct (enhanceError_shape
              (AxiosError.set_config (Request.set_retryCount c cfg') raw))
    as (H1 & H2 & H3 & H4 & H5).
  repeat split; [done..|].
  by exists n', cfg', raw.
Qed.

Lemma rejections_are_normalised_or_lost_config_witness :
  exists e,
    completion (perform remote_down 4 sample_client GetTools) = Rejected e /\
    (e = lost_config \/
     exists raw,
       JsError.name e = "Error" /\
       JsError.originalError e = Some raw /\
       JsError.status e = Response.status <$> AxiosError.response raw /\
       JsError.data e = Response.data <$> AxiosError.response raw /\
       String.prefix "NetPad API Error" (JsError.message e) = true /\
       exists n cfg raw0,
         Axios.dispatch remote_down n sample_instance cfg = inl raw0 /\
         AxiosError.message raw = AxiosError.message raw0 /\
         AxiosError.response raw = AxiosError.response raw0).
Proof.
  eexists. split; [reflexivity|].
  apply (rejections_are_normalised_or_lost_config remote_down 4
           sample_client sample_instance GetTools).
  - reflexivity.
  - reflexivity.
Defined.

(** ** Construction and reconfiguration, then requests *)

Lemma str_or_first (a : option string) (d s : string) :
  a = Some s -> s <> "" -> str_or a d = s.
Proof.
  intros -> Hs. unfold str_or.
  by destruct (String.eqb_spec s "").
Qed.

Lemma wire_instance remote fuel this inst op n inst' cfg :
  NetPadApiClient.client this = Some inst ->
  (Z.to_nat (Config.retries (NetPadApiClient.config this)) < fuel)%nat ->
  (n, inst', cfg) ∈ wire (trace (perform remote fuel this op)) ->
  inst' = inst /\ Request.url cfg = Request.url (request_of op).
Proof.
  intros Hc Hfuel Hin.
  destruct (perform_wire remote fuel this inst op Hc Hfuel)
    as [Hw Hsame].
  rewrite Hw in Hin.
  apply list_elem_of_fmap in Hin as (k & [= -> -> ->] & _).
  split; [done|]. apply Hsame.
Qed.

(** X10: with a non-empty resolved API key the constructor succeeds and
    builds the transport from the resolved configuration: the key of the
    options when that is non-empty, the key of the environment otherwise,
    goes into the [X-API-Key] header next to the fixed content type and
    user agent, and every attempt of every operation of the new client is
    made through that transport. *)
Theorem constructed_client_sends_its_key env options remote fuel op :
  let cfg := NetPadApiClient.resolveConfig env options in
  let this := (NetPadApiClient.constructor env options).1 in
  Config.apiKey cfg <> "" ->
  (Z.to_nat (Config.retries cfg) < fuel)%nat ->
  (NetPadApiClient.constructor env options).2 = Resolved tt /\
  NetPadApiClient.config this = cfg /\
  consistent this /\
  (forall k, Options.apiKey options = Some k -> k <> "" ->
             Config.apiKey cfg = k) /\
  (forall n inst request,
      (n, inst, request) ∈ wire (trace (perform remote fuel this op)) ->
      Axios.headers inst = headers_for (Config.apiKey cfg) /\
      Axios.baseURL inst = Config.baseURL cfg /\
      Axios.timeout inst = Config.timeout cfg).
Proof.
  cbv zeta. intros Hkey Hfuel.
  unfold NetPadApiClient.constructor, NetPadApiClient.initialize.
  cbn [NetPadApiClient.config].
  destruct (String.eqb_spec
              (Config.apiKey (NetPadApiClient.resolveConfig env options)) "")
    as [|_]; [done|].
  cbn [fst snd NetPadApiClient.config].
  split; [done|]. split; [done|]. split; [by split|]. split.
  - intros k Hk Hne. cbn. by apply str_or_first.
  - intros n inst request Hin.
    apply (wire_instance remote fuel _
             (NetPadApiClient.axios_create
                (NetPadApiClient.resolveConfig env options))) in Hin
      as [-> _]; done.
Qed.

Lemma constructed_client_sends_its_key_witness :
  let cfg := NetPadApiClient.resolveConfig env_with_key options_with_key in
  let this :=
    (NetPadApiClient.constructor env_with_key options_with_key).1 in
  (NetPadApiClient.constructor env_with_key options_with_key).2
    = Resolved tt /\
  NetPadApiClient.config this = cfg /\
  consistent this /\
  (forall k, Options.apiKey options_with_key = Some k -> k <> "" ->
             Config.apiKey cfg = k) /\
  (forall n inst request,
      (n, inst, request)
        ∈ wire (trace (perform (remote_status 500) 4 this GetTools)) ->
      Axios.headers inst = headers_for (Config.apiKey cfg) /\
      Axios.baseURL inst = Config.baseURL cfg /\
      Axios.timeout inst = Config.timeout cfg).
Proof.
  apply (constructed_client_sends_its_key env_with_key options_with_key
           (remote_status 500) 4 GetTools).
  - discriminate.
  - vm_compute. lia.
Defined.

(** X11: after a successful [updateConfig] the client is rebuilt on the
    merged configuration: every attempt of a later operation goes through
    a transport carrying the merged key, base URL and timeout, and the
    number of attempts is bounded by the merged retry limit. *)
Theorem reconfigured_client_uses_merged_settings this newConfig remote fuel
    op :
  let merged := NewConfig.merge (NetPadApiClient.config this) newConfig in
  let this' := (NetPadApiClient.updateConfig this newConfig).1 in
  Config.apiKey merged <> "" ->
  (Z.to_nat (Config.retries merged) < fuel)%nat ->
  (NetPadApiClient.updateConfig this newConfig).2 = Resolved tt /\
  consistent this' /\
  (attempts (trace (perform remote fuel this' op))
     <= Z.to_nat (Config.retries merged) + 1)%nat /\
  (forall n inst request,
      (n, inst, request) ∈ wire (trace (perform remote fuel this' op)) ->
      Axios.headers inst = headers_for (Config.apiKey merged) /\
      Axios.baseURL inst = Config.baseURL merged /\
      Axios.timeout inst = Config.timeout merged).
Proof.
  cbv zeta. intros Hkey Hfuel.
  unfold NetPadApiClient.updateConfig, NetPadApiClient.initialize.
  cbn [NetPadApiClient.config].
  destruct (String.eqb_spec
              (Config.apiKey
                 (NewConfig.merge (NetPadApiClient.config this) newConfig))
              "") as [|_]; [done|].
  cbn [fst snd].
  set (this' := {| NetPadApiClient.config := _ |}).
  split; [done|]. split; [by split|]. split.
  - apply (perform_bounded remote fuel this'
             (NetPadApiClient.axios_create
                (NewConfig.merge (NetPadApiClient.config this) newConfig)));
      done.
  - intros n inst request Hin.
    apply (wire_instance remote fuel this'
             (NetPadApiClient.axios_create
                (NewConfig.merge (NetPadApiClient.config this) newConfig)))
      in Hin as [-> _]; done.
Qed.

Lemma reconfigured_client_uses_merged_settings_witness :
  let merged := NewConfig.merge (NetPadApiClient.config sample_client)
                  newConfig_rotated in
  let this' :=
    (NetPadApiClient.updateConfig sample_client newConfig_rotated).1 in
  (NetPadApiClient.updateConfig sample_client newConfig_rotated).2
    = Resolved tt /\
  consistent this' /\
  (attempts (trace (perform remote_down 2 this' HealthCheck))
     <= Z.to_nat (Config.retries merged) + 1)%nat /\
  (forall n inst request,
      (n, inst, request)
        ∈ wire (trace (perform remote_down 2 this' HealthCheck)) ->
      Axios.headers inst = headers_for (Config.apiKey merged) /\
      Axios.baseURL inst = Config.baseURL merged /\
      Axios.timeout inst = Config.timeout merged).
Proof.
  apply (reconfigured_client_uses_merged_settings sample_client
           newConfig_rotated remote_down 2 HealthCheck).
  - discriminate.
  - vm_compute. lia.
Defined.

(** X12: after a rejected [updateConfig] the client still works, in a
    mixed state: later operations go through the transport from before
    the call, with the old key, but the interceptors read the stored
    configuration, so the retry limit in force is the merged one. *)
Theorem rejected_update_leaves_old_transport_new_limit this inst newConfig
    remote fuel op :
  let merged := NewConfig.merge (NetPadApiClient.config this) newConfig in
  let this' := (NetPadApiClient.updateConfig this newConfig).1 in
  NetPadApiClient.client this = Some inst ->
  Config.apiKey merged = "" ->
  (Z.to_nat (Config.retries merged) < fuel)%nat ->
  (exists e, (NetPadApiClient.updateConfig this newConfig).2 = Rejected e) /\
  (1 <= attempts (trace (perform remote fuel this' op))
     <= Z.to_nat (Config.retries merged) + 1)%nat /\
  (forall n inst' request,
      (n, inst', request) ∈ wire (trace (perform remote fuel this' op)) ->
      inst' = inst).
Proof.
  cbv zeta. intros Hc Hkey Hfuel.
  unfold NetPadApiClient.updateConfig, NetPadApiClient.initialize.
  cbn [NetPadApiClient.config]. rewrite Hkey. cbn [String.eqb fst snd].
  set (this' := {| NetPadApiClient.config := _ |}).
  split; [by eexists|]. split.
  - apply (perform_bounded remote fuel this' inst); done.
  - intros n inst' request Hin.
    apply (wire_instance remote fuel this' inst) in Hin as [-> _]; done.
Qed.

Lemma rejected_update_leaves_old_transport_new_limit_witness :
  let this' :=
    (NetPadApiClient.updateConfig sample_client newConfig_broken).1 in
  (exists e,
      (NetPadApiClient.updateConfig sample_client newConfig_broken).2
      = Rejected e) /\
  (1 <= attempts (trace (perform remote_down 1 this' GetTools))
     <= Z.to_nat
          (Config.retries
             (NewConfig.merge (NetPadApiClient.config sample_client)
                newConfig_broken)) + 1)%nat /\
  (forall n inst' request,
      (n, inst', request)
        ∈ wire (trace (perform remote_down 1 this' GetTools)) ->
      inst' = sample_instance).
Proof.
  apply (rejected_update_leaves_old_transport_new_limit sample_client
           sample_instance newConfig_broken remote_down 1 GetTools).
  - reflexivity.
  - reflexivity.
  - vm_compute. lia.
Defined.

(** ** Payloads of the convenience methods *)

Lemma assign_lookup (base : gmap string value) (m : gmap string value)
    (k : string) :
  assign base (VObj m) !! k
  = match m !! k with
    | Some v => Some v
    | None => base !! k
    end.
Proof.
  unfold assign. cbn [spread]. rewrite lookup_union.
  destruct (m !! k), (base !! k); reflexivity.
Qed.

(** X13: the extra fields of a convenience method are spread after the
    named arguments, so a field named like an argument replaces it. In
    [runWorkflow(name, input)] a [workflowName] property of [input] is
    sent instead of [name]; in [analyzeCode] a [code] property of the
    options is sent instead of the code; every other property of the
    extra fields is sent as it is, and without extra fields the payload
    holds the named arguments only. *)
Theorem extra_fields_override_named_arguments remote fuel this
    (name code language analysisType : value) (m : gmap string value) :
  let workflow := assign (list_to_map [("workflowName", name)]) (VObj m) in
  let analysis :=
    assign (list_to_map [("code", code); ("language", language);
                         ("analysisType",
                          default_param (VStr "summary") analysisType)])
           (VObj m) in
  NetPadApiClient.runWorkflow remote fuel this name (VObj m)
    = NetPadApiClient.executeCommand remote fuel this
        (VStr "custom_workflow") (VObj workflow) /\
  workflow !! "workflowName" = Some (default name (m !! "workflowName")) /\
  (forall k, k <> "workflowName" -> workflow !! k = m !! k) /\
  NetPadApiClient.runWorkflow remote fuel this name VUndefined
    = NetPadApiClient.executeCommand remote fuel this
        (VStr "custom_workflow")
        (NetPadApiClient.obj [("workflowName", name)]) /\
  NetPadApiClient.analyzeCode remote fuel this code language analysisType
      (VObj m)
    = NetPadApiClient.executeCommand remote fuel this
        (VStr "code_analysis") (VObj analysis) /\
  analysis !! "code" = Some (default code (m !! "code")) /\
  analysis !! "language" = Some (default language (m !! "language")).
Proof.
  cbv zeta. repeat split.
  - rewrite assign_lookup. by destruct (m !! "workflowName").
  - intros k Hk. rewrite assign_lookup.
    destruct (m !! k); [done|].
    cbn [list_to_map foldr]. by rewrite lookup_insert_ne.
  - rewrite assign_lookup. by destruct (m !! "code").
  - rewrite assign_lookup. by destruct (m !! "language").
Qed.

(** ** The module-level functions and the default client *)

(** X14: a failed attempt to create the default client is not remembered.
    When the environment later holds a key, the next call constructs the
    client from the environment alone, stores it and returns it. *)
Theorem failed_default_client_is_retried env env' st :
  let st1 := (getDefaultClient env st).1 in
  let st2 := (getDefaultClient env' st1).1 in
  defaultClient st = None ->
  Config.apiKey (NetPadApiClient.resolveConfig env Options.empty) = "" ->
  Config.apiKey (NetPadApiClient.resolveConfig env' Options.empty) <> "" ->
  completion (getDefaultClient env st).2 = Resolved None /\
  st1 = st /\
  completion (getDefaultClient env' st1).2
    = Resolved (Some (length (heap st))) /\
  defaultClient st2 = Some (length (heap st)) /\
  heap st2 !! length (heap st)
    = Some {| NetPadApiClient.config :=
                NetPadApiClient.resolveConfig env' Options.empty;
              NetPadApiClient.client :=
                Some (NetPadApiClient.axios_create
                        (NetPadApiClient.resolveConfig env' Options.empty)) |}.
Proof.
  cbv zeta. intros Hdef Hkey Hkey'.
  assert (getDefaultClient env st
          = (st,
             emit (ConsoleWarn "Failed to create default NetPad client:"
                     "NetPad API key is required. Set NETPAD_API_KEY environment variable or pass apiKey option.");;
             mret None)) as ->.
  { unfold getDefaultClient, new_NetPadApiClient,
      NetPadApiClient.constructor, NetPadApiClient.initialize.
    cbn [NetPadApiClient.config]. by rewrite Hdef, Hkey. }
  cbn [fst snd].
  unfold getDefaultClient, new_NetPadApiClient,
    NetPadApiClient.constructor, NetPadApiClient.initialize.
  cbn [NetPadApiClient.config]. rewrite Hdef.
  destruct (String.eqb_spec
              (Config.apiKey
                 (NetPadApiClient.resolveConfig env' Options.empty)) "")
    as [|_]; [done|].
  cbn. repeat split.
  by rewrite lookup_app_r, Nat.sub_diag.
Qed.

Lemma failed_default_client_is_retried_witness :
  let st1 := (getDefaultClient Env.empty initial_store).1 in
  let st2 := (getDefaultClient env_with_key st1).1 in
  completion (getDefaultClient Env.empty initial_store).2 = Resolved None /\
  st1 = initial_store /\
  completion (getDefaultClient env_with_key st1).2
    = Resolved (Some (length (heap initial_store))) /\
  defaultClient st2 = Some (length (heap initial_store)) /\
  heap st2 !! length (heap initial_store)
    = Some {| NetPadApiClient.config :=
                NetPadApiClient.resolveConfig env_with_key Options.empty;
              NetPadApiClient.client :=
                Some (NetPadApiClient.axios_create
                        (NetPadApiClient.resolveConfig env_with_key
                           Options.empty)) |}.
Proof.
  apply (failed_default_client_is_retried Env.empty env_with_key
           initial_store).
  - reflexivity.
  - reflexivity.
  - discriminate.
Defined.

(** X15: when the default client exists or can be created, the
    module-level [analyzeCode], [getTools] and [executeTool] are the
    methods of that one object: they do what the method does, events
    included, and leave the module holding the client. *)
Theorem module_functions_delegate_to_default_client remote fuel env st l
    this :
  let st' := (getDefaultClient env st).1 in
  completion (getDefaultClient env st).2 = Resolved (Some l) ->
  heap st' !! l = Some this ->
  defaultClient st' = Some l /\
  (forall code language analysisType,
      analyzeCode remote fuel env st code language analysisType
      = (st', NetPadApiClient.analyzeCode remote fuel this code language
                analysisType VUndefined)) /\
  getTools remote fuel env st
    = (st', NetPadApiClient.getTools remote fuel this) /\
  (forall toolName parameters,
      executeTool remote fuel env st toolName parameters
      = (st', NetPadApiClient.executeTool remote fuel this toolName
                parameters)).
Proof.
  cbv zeta. intros Hfound Hthis.
  assert (defaultClient (getDefaultClient env st).1 = Some l /\
          (getDefaultClient env st).2 = mret (Some l)) as [Hdef Hret].
  { pose proof (getDefaultClient_cases env st) as Hcases.
    destruct (defaultClient st) as [l0|] eqn:Hdef.
    - rewrite Hcases in Hfound |- *. cbn in Hfound |- *.
      injection Hfound as ->. done.
    - destruct (NetPadApiClient.constructor env Options.empty)
        as [that [[]|e|]]; [| |done].
      + rewrite Hcases in Hfound |- *. cbn in Hfound |- *.
        injection Hfound as <-. done.
      + rewrite Hcases in Hfound. cbn in Hfound. discriminate. }
  split; [done|].
  assert (forall A (m : NetPadApiClient.t -> Js A),
            (mret (Some l) : Js (option nat)) ≫= (fun client =>
               match client with
               | Some l0 => call (getDefaultClient env st).1 l0 m
               | None => throw (JsError.Error "NetPad client not configured")
               end) = m this) as Hcall.
  { intros A m.
    unfold mbind, Js_bind, js_bind, mret, Js_ret, js_ret.
    cbn [completion trace app]. unfold call. rewrite Hthis.
    by destruct (m this). }
  unfold analyzeCode, getTools, executeTool.
  destruct (getDefaultClient env st) as [st' found]. cbn [fst snd] in *.
  subst found. repeat split.
  - intros code language analysisType. f_equal.
    rewrite Hcall. unfold NetPadApiClient.analyzeCode.
    by destruct analysisType.
  - f_equal. apply Hcall.
  - intros toolName parameters. f_equal. apply Hcall.
Qed.

Lemma module_functions_delegate_to_default_client_witness :
  let st' := (getDefaultClient env_with_key initial_store).1 in
  defaultClient st' = Some 0%nat /\
  (forall code language analysisType,
      analyzeCode remote_down 4 env_with_key initial_store
        code language analysisType
      = (st', NetPadApiClient.analyzeCode remote_down 4 sample_client
                code language analysisType VUndefined)) /\
  getTools remote_down 4 env_with_key initial_store
    = (st', NetPadApiClient.getTools remote_down 4 sample_client) /\
  (forall toolName parameters,
      executeTool remote_down 4 env_with_key initial_store
        toolName parameters
      = (st', NetPadApiClient.executeTool remote_down 4 sample_client
                toolName parameters)).
Proof.
  apply (module_functions_delegate_to_default_client remote_down 4
           env_with_key initial_store 0 sample_client).
  - reflexivity.
  - reflexivity.
Defined.

(** ** Numbers read from the environment *)

Lemma digit_value_char (d : N) :
  (d < 10)%N -> digit_value 10 (pretty_N_char d) = Some (Z.of_N d).
Proof.
  intros H. rewrite <- (N2Nat.id d).
  assert (N.to_nat d < 10)%nat as Hn by lia.
  revert Hn. generalize (N.to_nat d). intros n Hn.
  do 10 (destruct n as [|n]; [reflexivity|]). lia.
Qed.

Lemma lead_digit_char (d : N) :
  (0 < d < 10)%N -> 49 <= code (pretty_N_char d) <= 57.
Proof.
  intros H. rewrite <- (N2Nat.id d).
  assert (0 < N.to_nat d < 10)%nat as Hn by lia.
  revert Hn. generalize (N.to_nat d). intros n Hn.
  destruct n as [|n]; [lia|].
  do 9 (destruct n as [|n]; [vm_compute; split; discriminate|]). lia.
Qed.

Lemma pretty_N_go_lead (x : N) :
  (0 < x)%N ->
  forall s, exists c s',
    pretty_N_go x s = String c s' /\ 49 <= code c <= 57.
Proof.
  induction (N.lt_wf_0 x) as [x _ IH]; intros Hx s.
  rewrite pretty_N_go_step by done.
  destruct (decide (x < 10)%N) as [Hlt|Hge].
  - rewrite N.div_small, pretty_N_go_0 by done.
    rewrite N.mod_small by done.
    do 2 eexists. split; [reflexivity|]. apply lead_digit_char. lia.
  - apply IH.
    + apply N.div_lt; lia.
    + apply N.div_str_pos. lia.
Qed.

Lemma digits_pretty_N_go (x : N) :
  (0 < x)%N ->
  exists p, forall s acc,
    digits 10 (pretty_N_go x s) acc
    = digits 10 s (Some (default 0 acc * p + Z.of_N x)).
Proof.
  induction (N.lt_wf_0 x) as [x _ IH]; intros Hx.
  assert (digit_value 10 (pretty_N_char (x `mod` 10))
          = Some (Z.of_N (x `mod` 10))) as Hd
    by (apply digit_value_char, N.mod_lt; lia).
  destruct (decide (x < 10)%N) as [Hlt|Hge].
  - exists 10. intros s acc.
    rewrite pretty_N_go_step by done.
    rewrite N.div_small, pretty_N_go_0 by done.
    cbn [digits]. rewrite Hd. rewrite N.mod_small by done.
    replace (10 * default 0 acc + Z.of_N x)
      with (default 0 acc * 10 + Z.of_N x) by lia.
    reflexivity.
  - destruct (IH (x `div` 10)%N) as (p & Hp).
    { apply N.div_lt; lia. }
    { apply N.div_str_pos. lia. }
    exists (10 * p). intros s acc.
    rewrite pretty_N_go_step by done.
    rewrite Hp. cbn [digits]. rewrite Hd. cbn [default].
    apply (f_equal (digits 10 s)), (f_equal Some). unfold id.
    rewrite (N.div_mod x 10) at 3 by done.
    rewrite N2Z.inj_add, N2Z.inj_mul. change (Z.of_N 10) with 10. lia.
Qed.

Lemma lead_digit_parse (c : Ascii.ascii) (s : string) :
  (49 <=? code c) && (code c <=? 57) = true ->
  parseInt (String c s) = digits 10 (String c s) None /\
  unsigned (String c s) = digits 10 (String c s) None.
Proof.
  intros H.
  destruct c as [[] [] [] [] [] [] [] []];
    try (vm_compute in H; discriminate H); split; reflexivity.
Qed.

Lemma parseInt_pretty_pos (p : positive) :
  parseInt (pretty (N.pos p)) = Some (Z.pos p) /\
  unsigned (pretty (N.pos p)) = Some (Z.pos p).
Proof.
  unfold pretty, pretty_N. destruct (decide (N.pos p = 0%N)); [done|].
  destruct (pretty_N_go_lead (N.pos p) ltac:(lia) "")
    as (c & s' & Hs & Hc).
  destruct (digits_pretty_N_go (N.pos p) ltac:(lia)) as (q & Hq).
  specialize (Hq "" None). cbn [digits default] in Hq.
  destruct (lead_digit_parse c s') as [H1 H2]; [lia|].
  rewrite Hs, H1, H2, <- Hs, Hq. split; f_equal; lia.
Qed.

(** [parseInt] reads back the decimal form of every integer. *)
Lemma parseInt_pretty (n : Z) : parseInt (pretty n) = Some n.
Proof.
  destruct n as [|p|p].
  - reflexivity.
  - apply parseInt_pretty_pos.
  - unfold pretty, pretty_Z.
    change ("-" +:+ pretty p) with (String "-"%char (pretty (N.pos p))).
    unfold parseInt. cbn [skip_spaces].
    change (is_space "-"%char) with false. cbv iota.
    destruct (parseInt_pretty_pos p) as [_ ->]. reflexivity.
Qed.

(** X16: a retry limit or a timeout given in the environment as the
    decimal form of a non-zero integer (within the range in which a
    JavaScript number is exact) is the resolved value when the options
    give none (or give 0); a value of 0 in the environment falls through
    to the default, 3 retries and 30000 ms. *)
Theorem environment_numbers_are_read env options (r t : Z) :
  - 2 ^ 53 < r < 2 ^ 53 ->
  - 2 ^ 53 < t < 2 ^ 53 ->
  Env.NETPAD_RETRIES env = Some (pretty r) ->
  Env.NETPAD_TIMEOUT env = Some (pretty t) ->
  num_or (Options.retries options) 0 = 0 ->
  num_or (Options.timeout options) 0 = 0 ->
  Config.retries (NetPadApiClient.resolveConfig env options)
    = (if r =? 0 then 3 else r) /\
  Config.timeout (NetPadApiClient.resolveConfig env options)
    = (if t =? 0 then 30000 else t).
Proof.
  intros _ _ Hr Ht Hor Hot.
  cbn [NetPadApiClient.resolveConfig Config.retries Config.timeout].
  rewrite Hr, Ht. cbn [parseInt_env mbind option_bind].
  rewrite !parseInt_pretty.
  assert (forall a d, num_or a 0 = 0 -> num_or a d = d) as Hnone.
  { intros [x|] d; cbn; [|done]. destruct (Z.eqb_spec x 0); [done|lia]. }
  rewrite (Hnone (Options.retries options)),
    (Hnone (Options.timeout options)) by done.
  split; reflexivity.
Qed.

Lemma environment_numbers_are_read_witness :
  Config.retries
    (NetPadApiClient.resolveConfig
       {| Env.NETPAD_API_URL := None; Env.NETPAD_API_KEY := Some "mcp_key";
          Env.NETPAD_TIMEOUT := Some (pretty 0);
          Env.NETPAD_RETRIES := Some (pretty 7) |}
       options_zero_retries) = 7 /\
  Config.timeout
    (NetPadApiClient.resolveConfig
       {| Env.NETPAD_API_URL := None; Env.NETPAD_API_KEY := Some "mcp_key";
          Env.NETPAD_TIMEOUT := Some (pretty 0);
          Env.NETPAD_RETRIES := Some (pretty 7) |}
       options_zero_retries) = 30000.
Proof.
  apply (environment_numbers_are_read
           {| Env.NETPAD_API_URL := None; Env.NETPAD_API_KEY := Some "mcp_key";
              Env.NETPAD_TIMEOUT := Some (pretty 0);
              Env.NETPAD_RETRIES := Some (pretty 7) |}
           options_zero_retries 7 0).
  - lia.
  - lia.
  - reflexivity.
  - reflexivity.
  - reflexivity.
  - reflexivity.
Defined.

(** ** The integration script *)

Lemma testConnection_never_throws_aux remote fuel this :
  (Z.to_nat (Config.retries (NetPadApiClient.config this)) < fuel)%nat ->
  match completion (NetPadApiClient.healthCheck remote fuel this) with
  | Resolved _ =>
      completion (NetPadApiClient.testConnection remote fuel this)
      = Resolved probe_ok
  | Rejected e =>
      completion (NetPadApiClient.testConnection remote fuel this)
      = Resolved (probe_failed e)
  | OutOfFuel => False
  end.
Proof.
  intros Hfuel.
  pose proof (perform_settles remote fuel this HealthCheck Hfuel) as Hfin.
  cbn [perform] in Hfin.
  unfold NetPadApiClient.testConnection, try_catch.
  rewrite !completion_bind.
  destruct (completion (NetPadApiClient.healthCheck remote fuel this))
    as [v|e|] eqn:Hh; [| |done].
  - js_simpl. rewrite ?Hh. js_simpl. reflexivity.
  - js_simpl. rewrite ?Hh. js_simpl. reflexivity.
Qed.

(** X17: the connection suite of the script never throws and records
    exactly one result, named ["Connection Test"]: a success when the
    health check resolved, and otherwise a failure whose message is
    ["Connection failed: "] followed by the message of the error. The
    tester keeps its client and its earlier results. *)
Theorem tester_records_one_connection_result world fuel now this object :
  NetPadTester.client this = Some object ->
  (Z.to_nat (Config.retries (NetPadApiClient.config object)) < fuel)%nat ->
  let run := NetPadTester.testConnection world fuel now this in
  NetPadTester.outcome run = Resolved tt /\
  NetPadTester.client (NetPadTester.after run) = Some object /\
  NetPadTester.testResults (NetPadTester.after run)
  = NetPadTester.testResults this ++
    [connection_result now
       (completion (NetPadApiClient.healthCheck (world 0%nat) fuel object))
       (length (NetPadTester.testResults this))].
Proof.
  intros Hc Hfuel. cbv zeta.
  unfold NetPadTester.testConnection, NetPadTester.on_client. rewrite Hc.
  pose proof (testConnection_never_throws_aux (world 0%nat) fuel object Hfuel)
    as Hprobe.
  destruct (completion (NetPadApiClient.healthCheck (world 0%nat) fuel object))
    as [v|e|]; [| |done]; rewrite Hprobe; cbn; by rewrite Hc.
Qed.

Lemma tester_records_one_connection_result_witness :
  let run := NetPadTester.testConnection (fun _ => remote_down) 4
               sample_clock sample_tester in
  NetPadTester.outcome run = Resolved tt /\
  NetPadTester.client (NetPadTester.after run)
    = Some (with_logging true sample_client) /\
  NetPadTester.testResults (NetPadTester.after run)
  = NetPadTester.testResults sample_tester ++
    [connection_result sample_clock
       (completion (NetPadApiClient.healthCheck remote_down 4
                      (with_logging true sample_client)))
       (length (NetPadTester.testResults sample_tester))].
Proof.
  apply (tester_records_one_connection_result (fun _ => remote_down) 4
           sample_clock sample_tester (with_logging true sample_client)).
  - reflexivity.
  - vm_compute. lia.
Defined.

Lemma errorLoop_verdicts world fuel now object :
  (Z.to_nat (Config.retries (NetPadApiClient.config object)) < fuel)%nat ->
  forall (ops : list (string * Operation)) k this,
    NetPadTester.client this = Some object ->
    let run :=
      NetPadTester.errorLoop world now
        (map (fun '(name, op) =>
                (name, fun remote => perform remote fuel object op)) ops)
        k this in
    NetPadTester.outcome run = Resolved tt /\
    NetPadTester.client (NetPadTester.after run) = Some object /\
    NetPadTester.testResults (NetPadTester.after run)
    = NetPadTester.testResults this ++
      imap (fun i '(name, op) =>
              verdict now name
                (completion (perform (world (k + i)%nat) fuel object op))
                (length (NetPadTester.testResults this) + i))
           ops.
Proof.
  intros Hfuel ops.
  induction ops as [|[name op] ops IH]; intros k this Hc; cbv zeta.
  - cbn. by rewrite app_nil_r.
  - cbn [map NetPadTester.errorLoop imap].
    pose proof (perform_settles (world k) fuel object op Hfuel) as Hfin.
    rewrite !Nat.add_0_r.
    destruct (completion (perform (world k) fuel object op)) as [v|e|];
      [| |done].
    + cbn [NetPadTester.outcome NetPadTester.after].
      edestruct (IH (S k)) as (Ho & Hcl & Hres);
        [|rewrite Ho, Hcl, Hres; split; [done|split; [done|]]].
      { done. }
      cbn [NetPadTester.addResult NetPadTester.testResults default_param].
      rewrite <- app_assoc. cbn [app verdict]. do 2 f_equal.
      apply imap_ext. intros i [name' op'] _. cbn.
      rewrite length_app. cbn [length].
      replace (S (k + i)) with (k + S i)%nat by lia.
      replace (length (NetPadTester.testResults this) + 1 + i)%nat
        with (length (NetPadTester.testResults this) + S i)%nat by lia.
      done.
    + cbn [NetPadTester.outcome NetPadTester.after].
      edestruct (IH (S k)) as (Ho & Hcl & Hres);
        [|rewrite Ho, Hcl, Hres; split; [done|split; [done|]]].
      { done. }
      cbn [NetPadTester.addResult NetPadTester.testResults default_param].
      rewrite <- app_assoc. cbn [app verdict]. do 2 f_equal.
      apply imap_ext. intros i [name' op'] _. cbn.
      rewrite length_app. cbn [length].
      replace (S (k + i)) with (k + S i)%nat by lia.
      replace (length (NetPadTester.testResults this) + 1 + i)%nat
        with (length (NetPadTester.testResults this) + S i)%nat by lia.
      done.
Qed.

(** X18: the error-handling suite of the script never throws and records
    three results, in order ["Invalid Command Type"],
    ["Missing Required Fields"] and ["Invalid Tool Name"]. A test passes
    exactly when its request was rejected, whatever the reason (a 4xx
    answer, a server error or a network failure after the retries), and
    fails with ["Expected error but got success"] when the remote accepted
    the request. *)
Theorem tester_counts_rejections_as_passes world fuel now this object :
  NetPadTester.client this = Some object ->
  (Z.to_nat (Config.retries (NetPadApiClient.config object)) < fuel)%nat ->
  let run := NetPadTester.testErrorHandling world fuel now this in
  let n := length (NetPadTester.testResults this) in
  NetPadTester.outcome run = Resolved tt /\
  NetPadTester.client (NetPadTester.after run) = Some object /\
  NetPadTester.testResults (NetPadTester.after run)
  = NetPadTester.testResults this ++
    [verdict now "Invalid Command Type"
       (completion
          (NetPadApiClient.executeCommand (world 0%nat) fuel object
             (VStr "invalid_command")
             (NetPadApiClient.obj [("code", VStr "test")])))
       n;
     verdict now "Missing Required Fields"
       (completion
          (NetPadApiClient.executeCommand (world 1%nat) fuel object
             (VStr "code_analysis") (NetPadApiClient.obj [])))
       (n + 1);
     verdict now "Invalid Tool Name"
       (completion
          (NetPadApiClient.executeTool (world 2%nat) fuel object
             (VStr "nonexistent_tool") (NetPadApiClient.obj [])))
       (n + 2)].
Proof.
  intros Hc Hfuel. cbv zeta.
  unfold NetPadTester.testErrorHandling.
  cbn [NetPadTester.outcome NetPadTester.after].
  pose proof (errorLoop_verdicts world fuel now object Hfuel
    [("Invalid Command Type",
      ExecuteCommand (VStr "invalid_command")
        (NetPadApiClient.obj [("code", VStr "test")]));
     ("Missing Required Fields",
      ExecuteCommand (VStr "code_analysis") (NetPadApiClient.obj []));
     ("Invalid Tool Name",
      ExecuteTool (VStr "nonexistent_tool") (NetPadApiClient.obj []))]
    0%nat this Hc) as H.
  cbv zeta in H.
  replace (NetPadTester.errorLoop world now
             (NetPadTester.errorTests fuel this) 0 this)
    with (NetPadTester.errorLoop world now
            (map (fun '(name, op) =>
                    (name, fun remote => perform remote fuel object op))
               [("Invalid Command Type",
                 ExecuteCommand (VStr "invalid_command")
                   (NetPadApiClient.obj [("code", VStr "test")]));
                ("Missing Required Fields",
                 ExecuteCommand (VStr "code_analysis")
                   (NetPadApiClient.obj []));
                ("Invalid Tool Name",
                 ExecuteTool (VStr "nonexistent_tool")
                   (NetPadApiClient.obj []))]) 0 this).
  2:{ unfold NetPadTester.errorTests, NetPadTester.on_client.
      rewrite Hc. reflexivity. }
  destruct H as (Ho & Hcl & Hres). rewrite Ho, Hcl, Hres.
  repeat split. cbn [imap]. unfold compose. rewrite !Nat.add_0_r.
  reflexivity.
Qed.

Lemma tester_counts_rejections_as_passes_witness :
  let world := fun k : nat =>
    if (k =? 1)%nat then remote_status 200 else remote_bad_request in
  let run := NetPadTester.testErrorHandling world 4 sample_clock
               sample_tester in
  let n := length (NetPadTester.testResults sample_tester) in
  NetPadTester.outcome run = Resolved tt /\
  NetPadTester.client (NetPadTester.after run)
    = Some (with_logging true sample_client) /\
  NetPadTester.testResults (NetPadTester.after run)
  = NetPadTester.testResults sample_tester ++
    [verdict sample_clock "Invalid Command Type"
       (completion
          (NetPadApiClient.executeCommand (world 0%nat) 4
             (with_logging true sample_client)
             (VStr "invalid_command")
             (NetPadApiClient.obj [("code", VStr "test")])))
       n;
     verdict sample_clock "Missing Required Fields"
       (completion
          (NetPadApiClient.executeCommand (world 1%nat) 4
             (with_logging true sample_client)
             (VStr "code_analysis") (NetPadApiClient.obj [])))
       (n + 1);
     verdict sample_clock "Invalid Tool Name"
       (completion
          (NetPadApiClient.executeTool (world 2%nat) 4
             (with_logging true sample_client)
             (VStr "nonexistent_tool") (NetPadApiClient.obj [])))
       (n + 2)].
Proof.
  apply (tester_counts_rejections_as_passes
           (fun k : nat =>
              if (k =? 1)%nat then remote_status 200 else remote_bad_request)
           4 sample_clock sample_tester (with_logging true sample_client)).
  - reflexivity.
  - vm_compute. lia.
Defined.

(** The witness above, evaluated: the accepted request is the failed
    test. *)
Lemma tester_sample_verdicts :
  map NetPadTester.success
    (NetPadTester.testResults
       (NetPadTester.after
          (NetPadTester.testErrorHandling
             (fun k : nat =>
                if (k =? 1)%nat then remote_status 200
                else remote_bad_request)
             4 sample_clock sample_tester)))
  = [true; false; true].
Proof. vm_compute. reflexivity. Qed.



(** X20: the script can only be initialised from the environment. Its
    [initialize] passes no key to the constructor, so with no non-empty
    [NETPAD_API_KEY] it prints the failure, rethrows the constructor's
    error and keeps the tester without a client; with one, the tester
    holds a client with logging switched on, built on that key, and its
    recorded results are untouched. *)
Theorem tester_initialize_needs_the_environment_key env this :
  let run := NetPadTester.initialize env this in
  let key := str_or (Env.NETPAD_API_KEY env) "" in
  if String.eqb key ""
  then (exists e, NetPadTester.outcome run = Rejected e /\
                  NetPadTester.output run
                  = [NetPadTester.Out
                       ["🚀 Initializing NetPad API Tests..."
                        +:+ NetPadTester.nl];
                     NetPadTester.Err
                       ["❌ Failed to initialize API client:";
                        JsError.message e]]) /\
       NetPadTester.after run = this
  else NetPadTester.outcome run = Resolved tt /\
       NetPadTester.testResults (NetPadTester.after run)
         = NetPadTester.testResults this /\
       exists object,
         NetPadTester.client (NetPadTester.after run) = Some object /\
         consistent object /\
         Config.apiKey (NetPadApiClient.config object) = key /\
         Config.enableLogging (NetPadApiClient.config object) = true.
Proof.
  cbv zeta.
  unfold NetPadTester.initialize, NetPadApiClient.constructor,
    NetPadApiClient.initialize.
  cbn [NetPadApiClient.config NetPadApiClient.resolveConfig Config.apiKey
       Options.apiKey str_or].
  destruct (String.eqb_spec (str_or (Env.NETPAD_API_KEY env) "") "")
    as [Hk|Hk].
  - split; [|done]. eexists. split; reflexivity.
  - split; [done|]. split; [done|]. eexists. split; [reflexivity|].
    repeat split. done.
Qed.
